(** * Shard routing over a consistent-hashing ring

    A shallow embedding of [database/sharding/main.py]: the
    [ConsistentHashing] class (ring construction from virtual nodes and
    key lookup), the session helper [get_session], and the two endpoints
    [create_user] and [get_user] with their try/except/finally
    discipline.

    Python values are modelled as follows.
    - [int] is [Z] (unbounded).
    - [str] is [string]; a string stands for its UTF-8 bytes, which is
      what [key.encode()] hands to the digest.
    - [Dict[int, str]] is [gmap Z string].  The dictionary is only read
      through [sorted(ring.keys())], [min(ring.keys())], [ring[k]] and
      its truth value, none of which depends on insertion order.
    - a raised exception is a value of [exn]; a call that may raise
      returns [result].
    - the SQLAlchemy session is an interface ([Backend]) whose methods
      may return or raise as the database decides.

    The handlers of [database/replication/main.py] and of
    [database/sharding/using_cytus_main.py] follow in the modules
    [Replication] and [Citus], each over an interface to psycopg. *)

From Stdlib Require Import ZArith Lia.
From stdpp Require Import gmap strings list sorting pretty.

Local Open Scope string_scope.
Local Open Scope list_scope.
Local Open Scope Z_scope.

(** ** Exceptions and results *)

(** The exceptions the module raises itself, and the ones that reach it
    from the libraries it calls.  [Foreign] stands for any exception
    raised by the database layer: the code observes only whether it is
    an instance of [Exception] (the [except Exception] clause) and its
    [str()]. *)
Inductive exn : Type :=
  | ValueError (msg : string)
  | KeyError (key : Z)
  | HTTPException (status_code : Z) (detail : string)
  | Foreign (is_Exception : bool) (str : string).

Global Instance exn_eq_dec : EqDecision exn.
Proof. solve_decision. Defined.

(** [isinstance(e, Exception)] *)
Definition isinstance_Exception (e : exn) : bool :=
  match e with
  | Foreign b _ => b
  | _ => true
  end.

(** [str(e)] *)
Definition str_exn (e : exn) : string :=
  match e with
  | ValueError msg => msg
  | KeyError key => pretty key
  | HTTPException status_code detail => pretty status_code +:+ ": " +:+ detail
  | Foreign _ s => s
  end.

Inductive result (A : Type) : Type :=
  | Return (a : A)
  | Raise (e : exn).
Arguments Return {A} a.
Arguments Raise {A} e.

(** ** [hashlib.md5] (RFC 1321), on bytes held as [Z] in 0..255 *)

Module hashlib.

Definition mask32 (x : Z) : Z := Z.land x 0xffffffff.
Definition lnot32 (x : Z) : Z := Z.lxor x 0xffffffff.
Definition rotl32 (x c : Z) : Z :=
  mask32 (Z.lor (Z.shiftl x c) (Z.shiftr x (32 - c))).

Definition s_table : list Z :=
  [7; 12; 17; 22; 7; 12; 17; 22; 7; 12; 17; 22; 7; 12; 17; 22;
   5;  9; 14; 20; 5;  9; 14; 20; 5;  9; 14; 20; 5;  9; 14; 20;
   4; 11; 16; 23; 4; 11; 16; 23; 4; 11; 16; 23; 4; 11; 16; 23;
   6; 10; 15; 21; 6; 10; 15; 21; 6; 10; 15; 21; 6; 10; 15; 21].

(** [K[i] = floor(2^32 * |sin(i + 1)|)] *)
Definition K_table : list Z :=
  [3614090360; 3905402710;  606105819; 3250441966;
   4118548399; 1200080426; 2821735955; 4249261313;
   1770035416; 2336552879; 4294925233; 2304563134;
   1804603682; 4254626195; 2792965006; 1236535329;
   4129170786; 3225465664;  643717713; 3921069994;
   3593408605;   38016083; 3634488961; 3889429448;
    568446438; 3275163606; 4107603335; 1163531501;
   2850285829; 4243563512; 1735328473; 2368359562;
   4294588738; 2272392833; 1839030562; 4259657740;
   2763975236; 1272893353; 4139469664; 3200236656;
    681279174; 3936430074; 3572445317;   76029189;
   3654602809; 3873151461;  530742520; 3299628645;
   4096336452; 1126891415; 2878612391; 4237533241;
   1700485571; 2399980690; 4293915773; 2240044497;
   1873313359; 4264355552; 2734768916; 1309151649;
   4149444226; 3174756917;  718787259; 3951481745].

Fixpoint le_bytes (n : nat) (x : Z) : list Z :=
  match n with
  | O => []
  | S n => x mod 256 :: le_bytes n (x / 256)
  end.

Fixpoint le_word (bs : list Z) : Z :=
  match bs with
  | [] => 0
  | b :: bs => b + 256 * le_word bs
  end.

Fixpoint words (n : nat) (bs : list Z) : list Z :=
  match n with
  | O => []
  | S n => le_word (take 4 bs) :: words n (drop 4 bs)
  end.

Definition pad (msg : list Z) : list Z :=
  let len := Z.of_nat (length msg) in
  msg ++ [0x80] ++ replicate (Z.to_nat ((55 - len) mod 64)) 0
      ++ le_bytes 8 ((8 * len) mod 2 ^ 64).

Definition state : Type := Z * Z * Z * Z.

Definition round (M : list Z) (st : state) (i : nat) : state :=
  let '(A, B, C, D) := st in
  let '(F, g) :=
    if (i <? 16)%nat then
      (Z.lor (Z.land B C) (Z.land (lnot32 B) D), i)
    else if (i <? 32)%nat then
      (Z.lor (Z.land D B) (Z.land (lnot32 D) C), ((5 * i + 1) mod 16)%nat)
    else if (i <? 48)%nat then
      (Z.lxor (Z.lxor B C) D, ((3 * i + 5) mod 16)%nat)
    else
      (Z.lxor C (Z.lor B (lnot32 D)), ((7 * i) mod 16)%nat) in
  let F' := mask32 (F + A + K_table !!! i + M !!! g) in
  (D, mask32 (B + rotl32 F' (s_table !!! i)), B, C).

Definition block (chunk : list Z) (st : state) : state :=
  let '(a0, b0, c0, d0) := st in
  let '(A, B, C, D) := foldl (round (words 16 chunk)) st (seq 0 64) in
  (mask32 (a0 + A), mask32 (b0 + B), mask32 (c0 + C), mask32 (d0 + D)).

Fixpoint blocks (n : nat) (bs : list Z) (st : state) : state :=
  match n with
  | O => st
  | S n => blocks n (drop 64 bs) (block (take 64 bs) st)
  end.

Definition md5_digest (msg : list Z) : list Z :=
  let padded := pad msg in
  let '(a, b, c, d) :=
    blocks (length padded / 64)%nat padded
           (0x67452301, 0xefcdab89, 0x98badcfe, 0x10325476) in
  le_bytes 4 a ++ le_bytes 4 b ++ le_bytes 4 c ++ le_bytes 4 d.

(** [int(hashlib.md5(msg).hexdigest(), 16)]: the sixteen digest bytes
    read as one big-endian number. *)
Definition md5_int (msg : list Z) : Z :=
  foldl (fun acc b => 256 * acc + b) 0 (md5_digest msg).

End hashlib.

(** [key.encode()] *)
Definition encode (key : string) : list Z :=
  (fun c => Z.of_N (Ascii.N_of_ascii c)) <$> String.list_ascii_of_string key.

(** ** The ring *)

(** [range(n)]: empty when [n <= 0]. *)
Definition range (n : Z) : list Z := seqZ 0 n.

(** [sorted(xs)] on integers *)
Definition sorted (xs : list Z) : list Z := merge_sort Z.le xs.

(** [min(xs)]: the running minimum, [ValueError] on an empty sequence. *)
Definition min_ (xs : list Z) : result Z :=
  match xs with
  | [] => Raise (ValueError "min() arg is an empty sequence")
  | x :: xs => Return (foldl (fun m y => if y <? m then y else m) x xs)
  end.

(** [d.keys()] *)
Definition keys (d : gmap Z string) : list Z := (map_to_list d).*1.

(** [d[k]] *)
Definition getitem (d : gmap Z string) (k : Z) : result string :=
  match d !! k with
  | Some v => Return v
  | None => Raise (KeyError k)
  end.

Module ConsistentHashing.

Record t : Type := mk {
  ring : gmap Z string;
  nodes : list string;
  virtual_nodes : Z
}.

Definition _hash (key : string) : Z := hashlib.md5_int (encode key).

(** The body of the inner loop of [_build_ring]. *)
Definition add_virtual_node (node : string) (ring : gmap Z string) (i : Z)
  : gmap Z string :=
  let virtual_node := node +:+ "#" +:+ pretty i in
  let hash_value := _hash virtual_node in
  <[hash_value := node]> ring.

Definition _build_ring (self : t) : t :=
  {| ring :=
       foldl (fun ring node =>
                foldl (add_virtual_node node) ring (range (virtual_nodes self)))
             (ring self) (nodes self);
     nodes := nodes self;
     virtual_nodes := virtual_nodes self |}.

Definition __init__ (nodes : list string) (virtual_nodes : Z) : t :=
  _build_ring {| ring := ∅; nodes := nodes; virtual_nodes := virtual_nodes |}.

(** The [for node_hash in sorted(...)] loop of [get_node]: [Some] is a
    [return] from inside the loop, [None] is the loop running out. *)
Fixpoint successor_scan (ring : gmap Z string) (key_hash : Z)
    (node_hashes : list Z) : option (result string) :=
  match node_hashes with
  | [] => None
  | node_hash :: rest =>
      if key_hash <=? node_hash then Some (getitem ring node_hash)
      else successor_scan ring key_hash rest
  end.

Definition get_node (self : t) (key : string) : result string :=
  if bool_decide (size (ring self) = 0%nat) then
    Raise (ValueError "No nodes in the ring")
  else
    let key_hash := _hash key in
    match successor_scan (ring self) key_hash (sorted (keys (ring self))) with
    | Some r => r
    | None =>
        match min_ (keys (ring self)) with
        | Return m => getitem (ring self) m
        | Raise e => Raise e
        end
    end.

End ConsistentHashing.

(** The module-level configuration. *)
Definition SHARDS : list string := ["shard_1"; "shard_2"; "shard_3"].
Definition consistent_hash : ConsistentHashing.t :=
  ConsistentHashing.__init__ SHARDS 100.

(** [DATABASE_URLS]; [ENGINES] and [SESSION_MAKERS] are comprehensions
    over its items, so the three dictionaries have the same keys.  A
    maker is determined by its shard name: [SESSION_MAKERS] is modelled
    by its key set and calling a maker is the backend's [sessionmaker]. *)
Definition DATABASE_URLS : gmap string string :=
  <["shard_3" := "postgresql+psycopg://postgres@localhost/shard_3"]>
  (<["shard_2" := "postgresql+psycopg://postgres@localhost/shard_2"]>
  (<["shard_1" := "postgresql+psycopg://postgres@localhost/shard_1"]> ∅)).
Definition SESSION_MAKERS : gset string := dom DATABASE_URLS.

(** ** Entities *)

(** [UserCreate], [User] and [UserResponse] declare the same four
    fields, and building a [User] from the keywords of [user.dict()]
    copies them one by one: a single record serves for the three. *)
Record User : Type := mkUser {
  user_id : Z;
  name : string;
  region : string;
  email : string
}.

Global Instance User_eq_dec : EqDecision User.
Proof. solve_decision. Defined.

(** ** The database session as an interface

    [W] is the state of the outside world (the three databases and the
    sessions open on them), [Session] the handle returned by a session
    maker.  Every method may return or raise, and changes the world as
    it pleases. *)
Class Backend (W Session : Type) : Type := {
  sessionmaker : string → W → result Session * W;
  add : Session → User → W → result () * W;
  commit : Session → W → result () * W;
  refresh : Session → User → W → result User * W;
  rollback : Session → W → result () * W;
  close : Session → W → result () * W;
  query_first : Session → Z → W → result (option User) * W
}.

(** The calls made on the backend, in order.  [EvSessionmaker] is the
    call of a session maker and [EvOpened] the session it returned;
    every other event is a method call on a session, entered whether
    the call returns or raises. *)
Inductive event (Session : Type) : Type :=
  | EvSessionmaker (shard : string)
  | EvOpened (shard : string) (s : Session)
  | EvAdd (s : Session) (u : User)
  | EvCommit (s : Session)
  | EvRefresh (s : Session) (u : User)
  | EvRollback (s : Session)
  | EvClose (s : Session)
  | EvQuery (s : Session) (uid : Z).
Arguments EvSessionmaker {Session} shard.
Arguments EvOpened {Session} shard s.
Arguments EvAdd {Session} s u.
Arguments EvCommit {Session} s.
Arguments EvRefresh {Session} s u.
Arguments EvRollback {Session} s.
Arguments EvClose {Session} s.
Arguments EvQuery {Session} s uid.

Section Router.
Context {W Session : Type} `{!Backend W Session}.

(** The world together with the log of backend calls. *)
Record world : Type := mkWorld {
  db : W;
  trace : list (event Session)
}.

(** A computation that reads and changes the world and either
    returns or raises. *)
Definition M (A : Type) : Type := world → result A * world.

Definition ret {A} (a : A) : M A := λ w, (Return a, w).
Definition raise {A} (e : exn) : M A := λ w, (Raise e, w).
Definition bind {A B} (m : M A) (k : A → M B) : M B :=
  λ w, match m w with
       | (Return a, w') => k a w'
       | (Raise e, w') => (Raise e, w')
       end.
Definition lift {A} (r : result A) : M A := λ w, (r, w).

(** [try: body except Exception as e: handler(e)] *)
Definition try_except {A} (body : M A) (handler : exn → M A) : M A :=
  λ w, match body w with
       | (Return a, w') => (Return a, w')
       | (Raise e, w') =>
           if isinstance_Exception e then handler e w' else (Raise e, w')
       end.

(** [try: body finally: final].  The [finally] block runs on every
    exit of [body]; if it raises, its exception replaces the outcome
    of [body]. *)
Definition try_finally {A} (body : M A) (final : M ()) : M A :=
  λ w, match body w with
       | (r, w') =>
           match final w' with
           | (Return _, w'') => (r, w'')
           | (Raise e, w'') => (Raise e, w'')
           end
       end.

(** A backend call, entered in the log before it runs. *)
Definition call {A} (ev : event Session) (op : W → result A * W) : M A :=
  λ w, match op (db w) with
       | (r, d) => (r, {| db := d; trace := trace w ++ [ev] |})
       end.

Definition log (ev : event Session) : M () :=
  λ w, (Return (), {| db := db w; trace := trace w ++ [ev] |}).

End Router.

Declare Scope router_scope.
Delimit Scope router_scope with router.
Notation "x <- m ;; k" := (bind m (λ x, k))
  (at level 100, m at next level, right associativity) : router_scope.
Notation "m ;; k" := (bind m (λ _, k))
  (at level 100, right associativity) : router_scope.

Section Endpoints.
Context {W Session : Type} `{!Backend W Session}.
Local Open Scope router_scope.

(** [get_session] *)
Definition get_session (shard : string) : M (W:=W) Session :=
  if bool_decide (shard ∉ SESSION_MAKERS) then
    raise (ValueError ("Unknown shard: " +:+ shard))
  else
    s <- call (EvSessionmaker shard) (sessionmaker shard) ;;
    log (EvOpened shard s) ;;
    ret s.

(** The [try] block of [create_user]. *)
Definition create_user_try (session : Session) (user : User) : M (W:=W) User :=
  let db_user := user in
  call (EvAdd session db_user) (add session db_user) ;;
  call (EvCommit session) (commit session) ;;
  db_user <- call (EvRefresh session db_user) (refresh session db_user) ;;
  ret db_user.

(** The [except Exception as e] block of [create_user]. *)
Definition create_user_except (session : Session) (e : exn) : M (W:=W) User :=
  call (EvRollback session) (rollback session) ;;
  raise (HTTPException 500 (str_exn e)).

Definition create_user (consistent_hash : ConsistentHashing.t) (user : User)
  : M (W:=W) User :=
  shard <- lift (ConsistentHashing.get_node consistent_hash (pretty (user_id user))) ;;
  session <- get_session shard ;;
  try_finally
    (try_except (create_user_try session user) (create_user_except session))
    (call (EvClose session) (close session)).

(** The [try] block of [get_user]. *)
Definition get_user_try (session : Session) (user_id : Z) : M (W:=W) User :=
  db_user <- call (EvQuery session user_id) (query_first session user_id) ;;
  match db_user with
  | None => raise (HTTPException 404 "User not found")
  | Some db_user => ret db_user
  end.

Definition get_user (consistent_hash : ConsistentHashing.t) (user_id : Z)
  : M (W:=W) User :=
  shard <- lift (ConsistentHashing.get_node consistent_hash (pretty user_id)) ;;
  session <- get_session shard ;;
  try_finally
    (get_user_try session user_id)
    (call (EvClose session) (close session)).

End Endpoints.

(** ** An in-memory backend

    One table of rows per shard, keyed by [user_id], with the columns
    of the [User] model: a [BigInteger] key, [String(100)],
    [String(50)], [String(100)], and the primary-key constraint.  The
    row is coerced and checked at commit, column by column in the
    order of the statement; a string longer than its column is cut to
    the column's width when only spaces are cut off, and refused
    otherwise.  A refusal reaches the code as SQLAlchemy words it: the
    driver's class and message, the statement, the bound parameters
    and a link.  A session is a number; the world remembers the shard
    it is bound to and the rows added but not yet committed. *)
Module MemDB.

Record t : Type := mk {
  rows : gmap string (gmap Z User);
  sessions : gmap nat (string * list User);
  next_session : nat
}.

Definition empty : t := {| rows := ∅; sessions := ∅; next_session := 0 |}.

Definition table (w : t) (shard : string) : gmap Z User :=
  default ∅ (rows w !! shard).

Definition closed {A} : result A := Raise (Foreign true "session is not open").

(** The characters of a string held as UTF-8 bytes: a byte of the
    form 10xxxxxx continues the character before it. *)
Definition is_continuation (c : Ascii.ascii) : bool :=
  (N.land (Ascii.N_of_ascii c) 192 =? 128)%N.

Fixpoint characters (s : string) : list string :=
  match s with
  | EmptyString => []
  | String c rest =>
      let chs := characters rest in
      let continued :=
        match rest with
        | String c' _ => is_continuation c'
        | EmptyString => false
        end in
      match chs with
      | ch :: chs' =>
          if continued then String c ch :: chs' else String c EmptyString :: chs
      | [] => [String c EmptyString]
      end
  end.

(** Assignment to [character varying(n)]. *)
Definition fit (n : nat) (s : string) : option string :=
  let chs := characters s in
  if bool_decide (length chs ≤ n)%nat then Some s
  else if forallb (λ ch, String.eqb ch " ") (drop n chs) then
    Some (String.concat "" (take n chs))
  else None.

Definition newline : string := String (Ascii.ascii_of_nat 10) EmptyString.
Definition double_quote : Ascii.ascii := Ascii.ascii_of_nat 34.
Definition single_quote : Ascii.ascii := Ascii.ascii_of_nat 39.
Definition backslash : Ascii.ascii := Ascii.ascii_of_nat 92.

Fixpoint contains (c : Ascii.ascii) (s : string) : bool :=
  match s with
  | EmptyString => false
  | String c' rest => if Ascii.eqb c c' then true else contains c rest
  end.

Definition hex_digit (n : N) : Ascii.ascii :=
  default (Ascii.ascii_of_nat 48) (String.get (N.to_nat n) "0123456789abcdef").

(** [repr] of a string, characters outside ASCII taken as printable. *)
Fixpoint repr_body (quote : Ascii.ascii) (s : string) : string :=
  match s with
  | EmptyString => EmptyString
  | String c rest =>
      let n := Ascii.N_of_ascii c in
      (if Ascii.eqb c quote || Ascii.eqb c backslash then
         String backslash (String c EmptyString)
       else if (n =? 9)%N then "\t"
       else if (n =? 10)%N then "\n"
       else if (n =? 13)%N then "\r"
       else if (n <? 32)%N || (n =? 127)%N then
         "\x" +:+ String (hex_digit (n / 16)) (String (hex_digit (n mod 16)) EmptyString)
       else String c EmptyString) +:+ repr_body quote rest
  end.

Definition repr_str (s : string) : string :=
  let quote :=
    if contains single_quote s && negb (contains double_quote s)
    then double_quote else single_quote in
  String quote (repr_body quote s +:+ String quote EmptyString).

(** SQLAlchemy shows at most 300 characters of the [repr] of a
    parameter. *)
Definition trunc (rep : string) : string :=
  let chs := characters rep in
  let len := length chs in
  if bool_decide (300 < len)%nat then
    String.concat "" (take 150 chs)
    +:+ " ... (" +:+ pretty (len - 300)%nat +:+ " characters truncated) ... "
    +:+ String.concat "" (drop (len - 150) chs)
  else rep.

Definition insert_statement : string :=
  "INSERT INTO users (user_id, name, region, email) VALUES (%(user_id)s::BIGINT, %(name)s::VARCHAR, %(region)s::VARCHAR, %(email)s::VARCHAR)".

Definition parameters (u : User) : string :=
  "{'user_id': " +:+ trunc (pretty (user_id u))
  +:+ ", 'name': " +:+ trunc (repr_str (name u))
  +:+ ", 'region': " +:+ trunc (repr_str (region u))
  +:+ ", 'email': " +:+ trunc (repr_str (email u)) +:+ "}".

(** [str(e)] of the exception SQLAlchemy raises for a statement the
    server refused. *)
Definition refusal (class message code : string) (u : User) : exn :=
  Foreign true
    ("(" +:+ class +:+ ") " +:+ message +:+ newline
     +:+ "[SQL: " +:+ insert_statement +:+ "]" +:+ newline
     +:+ "[parameters: " +:+ parameters u +:+ "]" +:+ newline
     +:+ "(Background on this error at: https://sqlalche.me/e/20/" +:+ code +:+ ")").

Definition too_long (n : string) (u : User) : exn :=
  refusal "psycopg.errors.StringDataRightTruncation"
    ("value too long for type character varying(" +:+ n +:+ ")") "9h9h" u.

(** The row as the table takes it. *)
Definition coerce (u : User) : result User :=
  if negb (bool_decide (- 2 ^ 63 ≤ user_id u < 2 ^ 63)) then
    Raise (refusal "psycopg.errors.NumericValueOutOfRange"
                   "bigint out of range" "9h9h" u)
  else
    match fit 100 (name u) with
    | None => Raise (too_long "100" u)
    | Some name' =>
        match fit 50 (region u) with
        | None => Raise (too_long "50" u)
        | Some region' =>
            match fit 100 (email u) with
            | None => Raise (too_long "100" u)
            | Some email' => Return (mkUser (user_id u) name' region' email')
            end
        end
    end.

Definition duplicate_key (u : User) : exn :=
  refusal "psycopg.errors.UniqueViolation"
    ("duplicate key value violates unique constraint "
     +:+ String double_quote ("users_pkey" +:+ String double_quote EmptyString)
     +:+ newline +:+ "DETAIL:  Key (user_id)=(" +:+ pretty (user_id u)
     +:+ ") already exists.") "gkpj" u.

Fixpoint flush (tbl : gmap Z User) (pending : list User)
  : result (gmap Z User) :=
  match pending with
  | [] => Return tbl
  | u :: pending =>
      match coerce u with
      | Raise e => Raise e
      | Return row =>
          if bool_decide (is_Some (tbl !! user_id row)) then
            Raise (duplicate_key u)
          else flush (<[user_id row := row]> tbl) pending
      end
  end.

Definition sessionmaker_ (shard : string) (w : t) : result nat * t :=
  (Return (next_session w),
   {| rows := rows w;
      sessions := <[next_session w := (shard, [])]> (sessions w);
      next_session := S (next_session w) |}).

Definition add_ (s : nat) (u : User) (w : t) : result () * t :=
  match sessions w !! s with
  | None => (closed, w)
  | Some (shard, pending) =>
      (Return (),
       {| rows := rows w;
          sessions := <[s := (shard, pending ++ [u])]> (sessions w);
          next_session := next_session w |})
  end.

Definition commit_ (s : nat) (w : t) : result () * t :=
  match sessions w !! s with
  | None => (closed, w)
  | Some (shard, pending) =>
      match flush (table w shard) pending with
      | Raise e => (Raise e, w)
      | Return tbl =>
          (Return (),
           {| rows := <[shard := tbl]> (rows w);
              sessions := <[s := (shard, [])]> (sessions w);
              next_session := next_session w |})
      end
  end.

Definition refresh_ (s : nat) (u : User) (w : t) : result User * t :=
  match sessions w !! s with
  | None => (closed, w)
  | Some (shard, _) =>
      match table w shard !! user_id u with
      | Some row => (Return row, w)
      | None => (Raise (Foreign true "Could not refresh instance"), w)
      end
  end.

Definition rollback_ (s : nat) (w : t) : result () * t :=
  match sessions w !! s with
  | None => (closed, w)
  | Some (shard, _) =>
      (Return (),
       {| rows := rows w;
          sessions := <[s := (shard, [])]> (sessions w);
          next_session := next_session w |})
  end.

Definition close_ (s : nat) (w : t) : result () * t :=
  (Return (),
   {| rows := rows w;
      sessions := delete s (sessions w);
      next_session := next_session w |}).

Definition query_first_ (s : nat) (uid : Z) (w : t)
  : result (option User) * t :=
  match sessions w !! s with
  | None => (closed, w)
  | Some (shard, _) => (Return (table w shard !! uid), w)
  end.

Global Instance backend : Backend t nat := {|
  sessionmaker := sessionmaker_;
  add := add_;
  commit := commit_;
  refresh := refresh_;
  rollback := rollback_;
  close := close_;
  query_first := query_first_
|}.

Definition start : world (W:=t) (Session:=nat) :=
  {| db := empty; trace := [] |}.

End MemDB.

(** ** A backend whose commits fail

    A database on which every commit raises the exception the world
    holds, and every other call returns: the shard servers are down,
    say, or their pools exhausted.  The exception is whatever SQLAlchemy
    raises then; the code sees its class and its [str()]. *)
Module Failing.

Global Instance backend : Backend exn unit := {|
  sessionmaker := λ _ w, (Return tt, w);
  add := λ _ _ w, (Return (), w);
  commit := λ _ w, (Raise w, w);
  refresh := λ _ u w, (Return u, w);
  rollback := λ _ w, (Return (), w);
  close := λ _ w, (Return (), w);
  query_first := λ _ _ w, (Return None, w)
|}.

Definition start (cause : exn) : world (W:=exn) (Session:=unit) :=
  {| db := cause; trace := [] |}.

End Failing.

(** ** A backend that fails

    A database that is reachable but fails: a commit is interrupted by
    an exception outside the [Exception] hierarchy (a
    [KeyboardInterrupt]), a query loses its connection.  There is
    nothing to remember: the world and the session are [()]. *)
Module Flaky.

Global Instance backend : Backend () () := {|
  sessionmaker := λ _ w, (Return (), w);
  add := λ _ _ w, (Return (), w);
  commit := λ _ w, (Raise (Foreign false "KeyboardInterrupt"), w);
  refresh := λ _ u w, (Return u, w);
  rollback := λ _ w, (Return (), w);
  close := λ _ w, (Return (), w);
  query_first := λ _ _ w, (Raise (Foreign true "server closed the connection unexpectedly"), w)
|}.

Definition start : world (W:=()) (Session:=()) :=
  {| db := (); trace := [] |}.

End Flaky.

(** ** [database/replication/main.py]: writes to the primary, reads
    from the replica

    The two psycopg pools are an interface again.  What the module
    relies on from the library is the protocol of [async with]: the
    block is entered through an [__aenter__] that hands out the
    connection or cursor, and on every exit of the block [__aexit__] is
    awaited, told whether an exception is in flight; psycopg's context
    managers never swallow that exception, and if [__aexit__] itself
    raises, its exception replaces the one in flight.  Log lines and
    the timing around them are left out, except where evaluating the
    message can raise. *)
Module Replication.

Inductive pool : Type := primary_pool | replica_pool.

Global Instance pool_eq_dec : EqDecision pool.
Proof. solve_decision. Defined.

(** Column values and the rows made of them. *)
Inductive value : Type :=
  | VInt (n : Z)
  | VStr (s : string)
  | VNone.

(** A [dict] with string keys, in insertion order. *)
Definition dict : Type := list (string * value).

(** Where a foreign exception sits in the class hierarchy:
    [psycopg.Error], another subclass of [Exception], or outside
    [Exception] altogether. *)
Inductive exn_class : Type := PsycopgError | OtherException | NotException.

Inductive exn : Type :=
  | HTTPException (status_code : Z) (detail : string)
  | TypeError (msg : string)
  | IndexError (msg : string)
  | Foreign (cls : exn_class) (str : string).

Definition isinstance_psycopg_Error (e : exn) : bool :=
  match e with
  | Foreign PsycopgError _ => true
  | _ => false
  end.

Definition isinstance_Exception (e : exn) : bool :=
  match e with
  | Foreign NotException _ => false
  | _ => true
  end.

Definition str_exn (e : exn) : string :=
  match e with
  | HTTPException status_code detail => pretty status_code +:+ ": " +:+ detail
  | TypeError msg | IndexError msg => msg
  | Foreign _ s => s
  end.

Inductive result (A : Type) : Type :=
  | Return (a : A)
  | Raise (e : exn).
Arguments Return {A} a.
Arguments Raise {A} e.

(** [row[i]] on what [fetchone] gave: a tuple, or [None]. *)
Definition subscript (row : option (list value)) (i : nat) : result value :=
  match row with
  | None => Raise (TypeError "'NoneType' object is not subscriptable")
  | Some cols =>
      match cols !! i with
      | Some v => Return v
      | None => Raise (IndexError "tuple index out of range")
      end
  end.

Class Backend (W Conn Cur : Type) : Type := {
  pool_open : pool → W → result () * W;
  pool_close : pool → W → result () * W;
  connection_aenter : pool → W → result Conn * W;
  connection_aexit : pool → Conn → bool → W → result () * W;
  cursor_aenter : Conn → W → result Cur * W;
  cursor_aexit : Cur → bool → W → result () * W;
  execute : Cur → string → list value → W → result () * W;
  fetchone : Cur → W → result (option (list value)) * W;
  fetchall : Cur → W → result (list dict) * W;
  commit : Conn → W → result () * W;
  rollback : Conn → W → result () * W
}.

Inductive event (Conn Cur : Type) : Type :=
  | EvPoolOpen (p : pool)
  | EvPoolClose (p : pool)
  | EvConnect (p : pool)
  | EvConnected (p : pool) (conn : Conn)
  | EvRelease (p : pool) (conn : Conn) (failed : bool)
  | EvCursor (conn : Conn)
  | EvCursorOpened (cur : Cur)
  | EvCursorClose (cur : Cur) (failed : bool)
  | EvExecute (cur : Cur) (query : string) (params : list value)
  | EvFetchone (cur : Cur)
  | EvFetchall (cur : Cur)
  | EvCommit (conn : Conn)
  | EvRollback (conn : Conn).
Arguments EvPoolOpen {Conn Cur} p.
Arguments EvPoolClose {Conn Cur} p.
Arguments EvConnect {Conn Cur} p.
Arguments EvConnected {Conn Cur} p conn.
Arguments EvRelease {Conn Cur} p conn failed.
Arguments EvCursor {Conn Cur} conn.
Arguments EvCursorOpened {Conn Cur} cur.
Arguments EvCursorClose {Conn Cur} cur failed.
Arguments EvExecute {Conn Cur} cur query params.
Arguments EvFetchone {Conn Cur} cur.
Arguments EvFetchall {Conn Cur} cur.
Arguments EvCommit {Conn Cur} conn.
Arguments EvRollback {Conn Cur} conn.

Section Handlers.
Context {W Conn Cur : Type} `{!Backend W Conn Cur}.

Record world : Type := mkWorld {
  db : W;
  trace : list (event Conn Cur)
}.

Definition M (A : Type) : Type := world → result A * world.

Definition ret {A} (a : A) : M A := λ w, (Return a, w).
Definition raise {A} (e : exn) : M A := λ w, (Raise e, w).
Definition bind {A B} (m : M A) (k : A → M B) : M B :=
  λ w, match m w with
       | (Return a, w') => k a w'
       | (Raise e, w') => (Raise e, w')
       end.
Definition lift {A} (r : result A) : M A := λ w, (r, w).

Definition call {A} (ev : event Conn Cur) (op : W → result A * W) : M A :=
  λ w, match op (db w) with
       | (r, d) => (r, {| db := d; trace := trace w ++ [ev] |})
       end.

Definition log (ev : event Conn Cur) : M () :=
  λ w, (Return (), {| db := db w; trace := trace w ++ [ev] |}).

(** [try: body except <class> as e: handler(e)] *)
Definition try_except {A} (is_caught : exn → bool) (body : M A)
    (handler : exn → M A) : M A :=
  λ w, match body w with
       | (Return a, w') => (Return a, w')
       | (Raise e, w') => if is_caught e then handler e w' else (Raise e, w')
       end.

(** [async with manager as x: body x] *)
Definition async_with {A B} (aenter : M A) (aexit : A → bool → M ())
    (body : A → M B) : M B :=
  bind aenter (λ x w,
    match body x w with
    | (r, w') =>
        let failed := match r with Return _ => false | Raise _ => true end in
        match aexit x failed w' with
        | (Return _, w'') => (r, w'')
        | (Raise e, w'') => (Raise e, w'')
        end
    end).

(** [async with pool.connection() as conn] *)
Definition with_connection {B} (p : pool) (body : Conn → M B) : M B :=
  async_with
    (bind (call (EvConnect p) (connection_aenter p))
          (λ conn, bind (log (EvConnected p conn)) (λ _, ret conn)))
    (λ conn failed, call (EvRelease p conn failed) (connection_aexit p conn failed))
    body.

(** [async with conn.cursor(...) as cur] *)
Definition with_cursor {B} (conn : Conn) (body : Cur → M B) : M B :=
  async_with
    (bind (call (EvCursor conn) (cursor_aenter conn))
          (λ cur, bind (log (EvCursorOpened cur)) (λ _, ret cur)))
    (λ cur failed, call (EvCursorClose cur failed) (cursor_aexit cur failed))
    body.

Definition startup_event : M () :=
  try_except isinstance_Exception
    (bind (call (EvPoolOpen primary_pool) (pool_open primary_pool)) (λ _,
       call (EvPoolOpen replica_pool) (pool_open replica_pool)))
    (λ e, raise e).

Definition shutdown_event : M () :=
  try_except isinstance_Exception
    (bind (call (EvPoolClose primary_pool) (pool_close primary_pool)) (λ _,
       call (EvPoolClose replica_pool) (pool_close replica_pool)))
    (λ e, ret ()).

Definition insert_query : string :=
  "INSERT INTO users (name) VALUES (%s) RETURNING id, name".

(** The [try] block of [create_user].  The row is subscripted first
    for the log line that follows the commit, then for the answer. *)
Definition create_user_try (conn : Conn) (name : string) : M dict :=
  with_cursor conn (λ cur,
    bind (call (EvExecute cur insert_query [VStr name])
               (execute cur insert_query [VStr name])) (λ _,
    bind (call (EvFetchone cur) (fetchone cur)) (λ result,
    bind (call (EvCommit conn) (commit conn)) (λ _,
    bind (lift (subscript result 0)) (λ _,
    bind (lift (subscript result 1)) (λ _,
    bind (lift (subscript result 0)) (λ id,
    bind (lift (subscript result 1)) (λ name,
    ret [("id", id); ("name", name)])))))))).

Definition create_user_except (conn : Conn) (e : exn) : M dict :=
  bind (call (EvRollback conn) (rollback conn)) (λ _,
  raise (HTTPException 400 ("Insert failed: " +:+ str_exn e))).

(** [name] is [user.name], the one field of [UserCreate]. *)
Definition create_user (name : string) : M dict :=
  with_connection primary_pool (λ conn,
    try_except isinstance_psycopg_Error
      (create_user_try conn name) (create_user_except conn)).

Definition select_query : string := "SELECT id, name FROM users".

Definition get_users_try (conn : Conn) : M (list dict) :=
  with_cursor conn (λ cur,
    bind (call (EvExecute cur select_query []) (execute cur select_query [])) (λ _,
    bind (call (EvFetchall cur) (fetchall cur)) (λ users,
    ret users))).

Definition get_users_except (e : exn) : M (list dict) :=
  raise (HTTPException 400 ("Query failed: " +:+ str_exn e)).

Definition get_users : M (list dict) :=
  with_connection replica_pool (λ conn,
    try_except isinstance_psycopg_Error (get_users_try conn) get_users_except).

(** What an invocation adds to the log. *)
Definition events_of {A} (m : M A) (w : world) : list (event Conn Cur) :=
  drop (length (trace w)) (trace (m w).2).

Definition connections_taken (evs : list (event Conn Cur)) : list (pool * Conn) :=
  omap (λ ev, match ev with EvConnected p c => Some (p, c) | _ => None end) evs.

Definition connections_released (evs : list (event Conn Cur)) : list (pool * Conn) :=
  omap (λ ev, match ev with EvRelease p c _ => Some (p, c) | _ => None end) evs.

Definition pools_used (evs : list (event Conn Cur)) : list pool :=
  omap (λ ev, match ev with
              | EvPoolOpen p | EvPoolClose p | EvConnect p
              | EvConnected p _ | EvRelease p _ _ => Some p
              | _ => None
              end) evs.

Definition is_transaction_end (ev : event Conn Cur) : bool :=
  match ev with
  | EvCommit _ | EvRollback _ => true
  | _ => false
  end.

(** The world in which the block under [pool.connection()] starts,
    once the pool has handed out [conn] and left the database at [d]. *)
Definition connected (w : world) (p : pool) (conn : Conn) (d : W) : world :=
  {| db := d; trace := trace w ++ [EvConnect p; EvConnected p conn] |}.

End Handlers.

(** A database for trying the handlers out: up, it stores the names
    inserted and numbers them from 1; down, every statement fails with
    a [psycopg.Error] and the pools refuse to open or close; mute, it
    accepts statements and yields no row. *)
Inductive mode : Type := Up | Down | Mute.

Record stub : Type := mkStub {
  stub_mode : mode;
  stub_names : list string
}.

Definition lost {A} : result A :=
  Raise (Foreign PsycopgError "the connection is lost").

Definition stub_execute (query : string) (params : list value) (w : stub)
  : result () * stub :=
  match stub_mode w with
  | Down => (lost, w)
  | Mute => (Return (), w)
  | Up =>
      match params with
      | [VStr n] => (Return (), mkStub Up (stub_names w ++ [n]))
      | _ => (Return (), w)
      end
  end.

Definition stub_fetchone (w : stub) : result (option (list value)) * stub :=
  match stub_mode w with
  | Down => (lost, w)
  | Mute => (Return None, w)
  | Up =>
      match last (stub_names w) with
      | Some n => (Return (Some [VInt (Z.of_nat (length (stub_names w))); VStr n]), w)
      | None => (Return None, w)
      end
  end.

Definition stub_fetchall (w : stub) : result (list dict) * stub :=
  match stub_mode w with
  | Down => (lost, w)
  | Mute => (Return [], w)
  | Up =>
      (Return (imap (λ i n, [("id", VInt (Z.of_nat (S i))); ("name", VStr n)])
                    (stub_names w)), w)
  end.

Definition stub_unit (w : stub) : result () * stub :=
  match stub_mode w with
  | Down => (lost, w)
  | _ => (Return (), w)
  end.

Global Instance stub_backend : Backend stub pool pool := {|
  pool_open := λ _, stub_unit;
  pool_close := λ _, stub_unit;
  connection_aenter := λ p w, (Return p, w);
  connection_aexit := λ _ _ _ w, (Return (), w);
  cursor_aenter := λ conn w, (Return conn, w);
  cursor_aexit := λ _ _ w, (Return (), w);
  execute := λ _, stub_execute;
  fetchone := λ _, stub_fetchone;
  fetchall := λ _, stub_fetchall;
  commit := λ _, stub_unit;
  rollback := λ _ w, (Return (), w)
|}.

Definition start (m : mode) : world (W:=stub) (Conn:=pool) (Cur:=pool) :=
  {| db := mkStub m []; trace := [] |}.

End Replication.

(** ** [database/sharding/using_cytus_main.py]: the handlers in front
    of the distributed-SQL coordinator

    Same protocol for [with] as for [async with] above: psycopg's
    connection and cursor never swallow the exception of their block.
    [get_db_connection] is [psycopg.connect]; leaving the connection's
    block is one call into the library, told whether an exception is in
    flight.  Column values are scalars, a row is a dictionary, and a
    dictionary is an association list read at its first matching key. *)
Module Citus.

Inductive value : Type :=
  | VInt (n : Z)
  | VStr (s : string)
  | VNone.

Inductive key : Type :=
  | KInt (n : Z)
  | KStr (s : string).

Global Instance key_eq_dec : EqDecision key.
Proof. solve_decision. Defined.

Definition dict : Type := list (key * value).

Inductive exn : Type :=
  | KeyError (k : key)
  | TypeError (msg : string)
  | Foreign (is_psycopg_Error : bool) (str : string).

Definition isinstance_psycopg_Error (e : exn) : bool :=
  match e with
  | Foreign b _ => b
  | _ => false
  end.

(** [repr] of a key, as [str(KeyError(k))] shows it. *)
Definition repr_key (k : key) : string :=
  match k with
  | KInt n => pretty n
  | KStr s => "'" +:+ s +:+ "'"
  end.

Definition str_exn (e : exn) : string :=
  match e with
  | KeyError k => repr_key k
  | TypeError msg => msg
  | Foreign _ s => s
  end.

(** [format(v)] inside an f-string *)
Definition str_value (v : value) : string :=
  match v with
  | VInt n => pretty n
  | VStr s => s
  | VNone => "None"
  end.

Inductive result (A : Type) : Type :=
  | Return (a : A)
  | Raise (e : exn).
Arguments Return {A} a.
Arguments Raise {A} e.

Fixpoint dict_get (d : dict) (k : key) : option value :=
  match d with
  | [] => None
  | (k', v) :: d => if decide (k' = k) then Some v else dict_get d k
  end.

(** [row[k]] on what [fetchone] gave: a dictionary, or [None]. *)
Definition subscript (row : option dict) (k : key) : result value :=
  match row with
  | None => Raise (TypeError "'NoneType' object is not subscriptable")
  | Some d =>
      match dict_get d k with
      | Some v => Return v
      | None => Raise (KeyError k)
      end
  end.

(** [v[k]] on a column value: no scalar can be subscripted with a
    string. *)
Definition subscript_value (v : value) (k : string) : result value :=
  match v with
  | VInt _ => Raise (TypeError "'int' object is not subscriptable")
  | VStr _ => Raise (TypeError "string indices must be integers")
  | VNone => Raise (TypeError "'NoneType' object is not subscriptable")
  end.

(** Truth value of what [fetchone] gave. *)
Definition truthy (row : option dict) : bool :=
  match row with
  | Some (_ :: _) => true
  | _ => false
  end.

Class Backend (W Conn Cur : Type) : Type := {
  connect : W → result Conn * W;
  connection_exit : Conn → bool → W → result () * W;
  cursor_enter : Conn → W → result Cur * W;
  cursor_exit : Cur → bool → W → result () * W;
  execute : Cur → string → list value → W → result () * W;
  fetchone : Cur → W → result (option dict) * W;
  commit : Conn → W → result () * W
}.

Inductive event (Conn Cur : Type) : Type :=
  | EvConnect
  | EvConnected (conn : Conn)
  | EvConnectionExit (conn : Conn) (failed : bool)
  | EvCursor (conn : Conn)
  | EvCursorOpened (cur : Cur)
  | EvCursorExit (cur : Cur) (failed : bool)
  | EvExecute (cur : Cur) (query : string) (params : list value)
  | EvFetchone (cur : Cur)
  | EvCommit (conn : Conn).
Arguments EvConnect {Conn Cur}.
Arguments EvConnected {Conn Cur} conn.
Arguments EvConnectionExit {Conn Cur} conn failed.
Arguments EvCursor {Conn Cur} conn.
Arguments EvCursorOpened {Conn Cur} cur.
Arguments EvCursorExit {Conn Cur} cur failed.
Arguments EvExecute {Conn Cur} cur query params.
Arguments EvFetchone {Conn Cur} cur.
Arguments EvCommit {Conn Cur} conn.

Section Handlers.
Context {W Conn Cur : Type} `{!Backend W Conn Cur}.

Record world : Type := mkWorld {
  db : W;
  trace : list (event Conn Cur)
}.

Definition M (A : Type) : Type := world → result A * world.

Definition ret {A} (a : A) : M A := λ w, (Return a, w).
Definition raise {A} (e : exn) : M A := λ w, (Raise e, w).
Definition bind {A B} (m : M A) (k : A → M B) : M B :=
  λ w, match m w with
       | (Return a, w') => k a w'
       | (Raise e, w') => (Raise e, w')
       end.
Definition lift {A} (r : result A) : M A := λ w, (r, w).

Definition call {A} (ev : event Conn Cur) (op : W → result A * W) : M A :=
  λ w, match op (db w) with
       | (r, d) => (r, {| db := d; trace := trace w ++ [ev] |})
       end.

Definition log (ev : event Conn Cur) : M () :=
  λ w, (Return (), {| db := db w; trace := trace w ++ [ev] |}).

(** [try: body except psycopg.Error as e: handler(e)] *)
Definition try_except {A} (body : M A) (handler : exn → M A) : M A :=
  λ w, match body w with
       | (Return a, w') => (Return a, w')
       | (Raise e, w') =>
           if isinstance_psycopg_Error e then handler e w' else (Raise e, w')
       end.

(** [with manager as x: body x] *)
Definition with_ {A B} (enter : M A) (exit : A → bool → M ())
    (body : A → M B) : M B :=
  bind enter (λ x w,
    match body x w with
    | (r, w') =>
        let failed := match r with Return _ => false | Raise _ => true end in
        match exit x failed w' with
        | (Return _, w'') => (r, w'')
        | (Raise e, w'') => (Raise e, w'')
        end
    end).

(** [with get_db_connection() as conn] *)
Definition with_connection {B} (body : Conn → M B) : M B :=
  with_
    (bind (call EvConnect connect)
          (λ conn, bind (log (EvConnected conn)) (λ _, ret conn)))
    (λ conn failed, call (EvConnectionExit conn failed) (connection_exit conn failed))
    body.

(** [with conn.cursor() as cursor] *)
Definition with_cursor {B} (conn : Conn) (body : Cur → M B) : M B :=
  with_
    (bind (call (EvCursor conn) (cursor_enter conn))
          (λ cur, bind (log (EvCursorOpened cur)) (λ _, ret cur)))
    (λ cur failed, call (EvCursorExit cur failed) (cursor_exit cur failed))
    body.

Definition select_user : string := "SELECT * FROM users WHERE user_id = %s".

Definition get_user (user_id : Z) : M dict :=
  bind (with_connection (λ conn,
          with_cursor conn (λ cursor,
            bind (call (EvExecute cursor select_user [VInt user_id])
                       (execute cursor select_user [VInt user_id])) (λ _,
            call (EvFetchone cursor) (fetchone cursor))))) (λ user,
  ret (if truthy user then default [] user else [])).

Definition insert_user : string :=
  "INSERT INTO users (name, email, created_at) VALUES (%s, %s, %s) RETURNING user_id".

Definition create_user (name email created_at : string) : M dict :=
  bind (with_connection (λ conn,
          with_cursor conn (λ cursor,
            bind (call (EvExecute cursor insert_user
                          [VStr name; VStr email; VStr created_at])
                       (execute cursor insert_user
                          [VStr name; VStr email; VStr created_at])) (λ _,
            bind (call (EvFetchone cursor) (fetchone cursor)) (λ row,
            bind (lift (subscript row (KInt 0))) (λ first,
            bind (lift (subscript_value first "user_id")) (λ user_id,
            bind (call (EvCommit conn) (commit conn)) (λ _,
            ret user_id)))))))) (λ user_id,
  ret [(KStr "user_id", user_id); (KStr "name", VStr name);
       (KStr "email", VStr email); (KStr "created_at", VStr created_at)]).

(** The two statements of [get_user_shard], as the triple-quoted
    literals of the source have them, line breaks and indentation
    included. *)
Definition select_shard : string := "
                    SELECT shardid
                    FROM pg_dist_shard
                    WHERE logicalrelid = 'users'::regclass
                    AND shardminvalue::bigint <= hashtext(%s)::bigint
                    AND shardmaxvalue::bigint >= hashtext(%s)::bigint
                    ".

Definition select_node : string := "
                    SELECT nodename, nodeport
                    FROM citus_shards
                    WHERE table_name = 'users' AND shardid = %s
                    ".

(** The block under the [try] of [get_user_shard]. *)
Definition get_user_shard_try (user_id : Z) : M dict :=
  with_connection (λ conn,
    with_cursor conn (λ cursor,
      bind (call (EvExecute cursor select_shard
                    [VStr (pretty user_id); VStr (pretty user_id)])
                 (execute cursor select_shard
                    [VStr (pretty user_id); VStr (pretty user_id)])) (λ _,
      bind (call (EvFetchone cursor) (fetchone cursor)) (λ shard,
      if negb (truthy shard) then
        ret [(KStr "error", VStr "Shard not found")]
      else
        bind (lift (subscript shard (KStr "shardid"))) (λ shard_id,
        bind (call (EvExecute cursor select_node [shard_id])
                   (execute cursor select_node [shard_id])) (λ _,
        bind (call (EvFetchone cursor) (fetchone cursor)) (λ node,
        bind (if truthy node then
                bind (lift (subscript node (KStr "nodename"))) (λ nodename,
                bind (lift (subscript node (KStr "nodeport"))) (λ nodeport,
                ret (str_value nodename +:+ ":" +:+ str_value nodeport)))
              else ret "Unknown") (λ node_text,
        ret [(KStr "user_id", VInt user_id); (KStr "shard_id", shard_id);
             (KStr "node", VStr node_text)])))))))).

Definition get_user_shard (user_id : Z) : M dict :=
  try_except (get_user_shard_try user_id)
    (λ e, ret [(KStr "error", VStr (str_exn e))]).

Definition events_of {A} (m : M A) (w : world) : list (event Conn Cur) :=
  drop (length (trace w)) (trace (m w).2).

Definition is_commit (ev : event Conn Cur) : bool :=
  match ev with
  | EvCommit _ => true
  | _ => false
  end.

Definition is_execute (ev : event Conn Cur) : bool :=
  match ev with
  | EvExecute _ _ _ => true
  | _ => false
  end.

End Handlers.

(** A coordinator for trying the handlers out: it answers each of the
    four statements with the row it was set up with; unreachable,
    [connect] fails with a [psycopg.Error]. *)
Record stub : Type := mkStub {
  reachable : bool;
  user_row : option dict;
  shard_row : option dict;
  node_row : option dict;
  answer : option dict
}.

Definition refused {A} : result A :=
  Raise (Foreign true "connection refused").

Definition stub_execute (query : string) (params : list value) (w : stub)
  : result () * stub :=
  let found :=
    if decide (query = select_user) then user_row w
    else if decide (query = select_shard) then shard_row w
    else if decide (query = select_node) then node_row w
    else if decide (query = insert_user) then Some [(KStr "user_id", VInt 1)]
    else None in
  (Return (),
   mkStub (reachable w) (user_row w) (shard_row w) (node_row w) found).

Global Instance stub_backend : Backend stub () () := {|
  connect := λ w, if reachable w then (Return (), w) else (refused, w);
  connection_exit := λ _ _ w, (Return (), w);
  cursor_enter := λ _ w, (Return (), w);
  cursor_exit := λ _ _ w, (Return (), w);
  execute := λ _, stub_execute;
  fetchone := λ _ w, (Return (answer w), w);
  commit := λ _ w, (Return (), w)
|}.

Definition start (d : stub) : world (W:=stub) (Conn:=()) (Cur:=()) :=
  {| db := d; trace := [] |}.

(** A coordinator that holds nothing, one that is down, and one that
    holds user 42 on shard 102008 of node [worker-1]. *)
Definition bare : stub := mkStub true None None None None.
Definition down : stub := mkStub false None None None None.
Definition loaded : stub :=
  mkStub true
    (Some [(KStr "user_id", VInt 42); (KStr "name", VStr "Ada")])
    (Some [(KStr "shardid", VInt 102008)])
    (Some [(KStr "nodename", VStr "worker-1"); (KStr "nodeport", VInt 5432)])
    None.

End Citus.

(** ** Sample requests *)

Definition ada : User := mkUser 42 "Ada" "eu" "ada@example.org".

Definition bob : User := mkUser 7 "Bob" "us" "bob@example.org".

(** ** Vocabulary of the statements *)

(** [p] is the successor of [h] among the positions stored in [ring]:
    the smallest stored position that is at least [h]. *)
Definition successor_of (ring : gmap Z string) (h p : Z) : Prop :=
  is_Some (ring !! p) ∧ h ≤ p ∧
  ∀ q, is_Some (ring !! q) → h ≤ q → p ≤ q.

(** [h] lies above every stored position and [p] is the least one. *)
Definition wraps_to (ring : gmap Z string) (h p : Z) : Prop :=
  is_Some (ring !! p) ∧
  (∀ q, is_Some (ring !! q) → q < h) ∧
  ∀ q, is_Some (ring !! q) → p ≤ q.

(** The virtual nodes in the order the two loops of [_build_ring] visit
    them, each with its position and its shard. *)
Definition virtual_node_entries (nodes : list string) (virtual_nodes : Z)
  : list (Z * string) :=
  nodes ≫= λ node,
    (λ i, (ConsistentHashing._hash (node +:+ "#" +:+ pretty i), node))
      <$> range virtual_nodes.

(** One dictionary store [ring[p] = s] per entry [(p, s)], in order. *)
Definition store_all (ring : gmap Z string) (entries : list (Z * string))
  : gmap Z string :=
  foldl (λ ring e, <[e.1 := e.2]> ring) ring entries.

(** How many positions of a sequence of insertions were already taken,
    by [seen] or by an earlier insertion of the sequence. *)
Fixpoint collisions (seen : list Z) (positions : list Z) : nat :=
  match positions with
  | [] => 0
  | p :: rest =>
      ((if bool_decide (p ∈ seen) then 1 else 0) + collisions (p :: seen) rest)%nat
  end.

(** What an invocation adds to the log, and what the log says about
    sessions. *)
Section Traces.
Context {W Session : Type} `{!Backend W Session}.

Definition events_of {A} (m : M (W:=W) (Session:=Session) A) (w : world)
  : list (event Session) :=
  drop (length (trace w)) (trace (m w).2).

Definition requested_shards (evs : list (event Session)) : list string :=
  omap (λ ev, match ev with EvSessionmaker shard => Some shard | _ => None end) evs.

Definition opened_sessions (evs : list (event Session)) : list Session :=
  omap (λ ev, match ev with EvOpened _ s => Some s | _ => None end) evs.

Definition closed_sessions (evs : list (event Session)) : list Session :=
  omap (λ ev, match ev with EvClose s => Some s | _ => None end) evs.

End Traces.

(** What it would take for the error of a failed create to carry the
    shard: some reading [shard_of] of the raised value gives the shard
    the request was routed to, for each of the two requests, whatever
    exception made the commit fail. *)
Definition error_tells_shard (ch : ConsistentHashing.t) (u1 u2 : User)
    (shard1 shard2 : string) : Prop :=
  ∃ shard_of : exn → string,
    ∀ cause, isinstance_Exception cause = true →
      (∀ e, (create_user ch u1 (Failing.start cause)).1 = Raise e →
            shard_of e = shard1) ∧
      (∀ e, (create_user ch u2 (Failing.start cause)).1 = Raise e →
            shard_of e = shard2).

(** The events of an invocation that changes nothing: a session is
    made, queried and closed. *)
Definition is_read_only {Session} (ev : event Session) : bool :=
  match ev with
  | EvSessionmaker _ | EvOpened _ _ | EvQuery _ _ | EvClose _ => true
  | EvAdd _ _ | EvCommit _ | EvRefresh _ _ | EvRollback _ => false
  end.

(** * Properties *)

(** ** The digest agrees with the RFC 1321 test suite *)

Example md5_empty :
  hashlib.md5_int (encode "") = 0xd41d8cd98f00b204e9800998ecf8427e.
Proof. vm_compute. reflexivity. Qed.

Example md5_abc :
  hashlib.md5_int (encode "abc") = 0x900150983cd24fb0d6963f7d28e17f72.
Proof. vm_compute. reflexivity. Qed.

Example md5_two_blocks :
  hashlib.md5_int
    (encode "12345678901234567890123456789012345678901234567890123456789012345678901234567890")
  = 0x57edf4a22be3c955ac49da2e2107b67a.
Proof. vm_compute. reflexivity. Qed.

(** ** Python built-ins *)

Section Builtins.
Implicit Types (xs : list Z) (d : gmap Z string).

Lemma sorted_elem_of xs q : q ∈ sorted xs ↔ q ∈ xs.
Proof. unfold sorted. by rewrite merge_sort_Permutation. Qed.

Lemma sorted_StronglySorted xs : StronglySorted Z.le (sorted xs).
Proof.
  apply Sorted_StronglySorted; [apply _|].
  apply Sorted_merge_sort. apply _.
Qed.

Lemma running_min_spec xs x :
  let m := foldl (λ m y, if y <? m then y else m) x xs in
  (m = x ∨ m ∈ xs) ∧ m ≤ x ∧ ∀ q, q ∈ xs → m ≤ q.
Proof.
  revert x. induction xs as [|y xs IH]; intros x; simpl.
  - split; [by left|]. split; [lia|]. intros q Hq. by apply elem_of_nil in Hq.
  - destruct (IH (if y <? x then y else x)) as (Hin & Hle & Hall).
    destruct (Z.ltb_spec y x); (split; [|split]).
    + destruct Hin as [->|Hin]; right; [left|by right].
    + lia.
    + intros q [->|Hq]%elem_of_cons; [lia|auto].
    + destruct Hin as [->|Hin]; [by left|right; by right].
    + lia.
    + intros q [->|Hq]%elem_of_cons; [lia|auto].
Qed.

Lemma min_spec xs :
  xs ≠ [] → ∃ m, min_ xs = Return m ∧ m ∈ xs ∧ ∀ q, q ∈ xs → m ≤ q.
Proof.
  destruct xs as [|x xs]; [done|]. intros _. simpl.
  destruct (running_min_spec xs x) as (Hin & Hle & Hall).
  eexists. split; [done|]. split.
  - destruct Hin as [->|Hin]; [left|by right].
  - intros q [->|Hq]%elem_of_cons; auto.
Qed.

Lemma elem_of_keys d k : k ∈ keys d ↔ is_Some (d !! k).
Proof.
  unfold keys. rewrite list_elem_of_fmap. split.
  - intros ([k' v] & -> & Hkv). apply elem_of_map_to_list in Hkv. by exists v.
  - intros [v Hv]. exists (k, v). split; [done|]. by apply elem_of_map_to_list.
Qed.

Lemma keys_nil d : keys d = [] ↔ size d = 0%nat.
Proof.
  unfold keys. rewrite map_size_empty_iff, <-map_to_list_empty_iff.
  split; [apply fmap_nil_inv|by intros ->].
Qed.

Lemma getitem_Return d k v : d !! k = Some v → getitem d k = Return v.
Proof. unfold getitem. by intros ->. Qed.

End Builtins.

(** ** Key lookup on the ring *)

Section GetNode.
Import ConsistentHashing.
Implicit Types (self : ConsistentHashing.t) (key : string).

Lemma successor_scan_None d h l :
  successor_scan d h l = None ↔ ∀ q, q ∈ l → q < h.
Proof.
  induction l as [|p l IH]; simpl.
  - split; [|done]. intros _ q Hq. by apply elem_of_nil in Hq.
  - destruct (Z.leb_spec h p).
    + split; [done|]. intros Hall. specialize (Hall p (list_elem_of_here _ _)). lia.
    + rewrite IH. split.
      * intros Hall q [->|Hq]%elem_of_cons; auto.
      * intros Hall q Hq. apply Hall. by right.
Qed.

Lemma successor_scan_Some d h l r :
  StronglySorted Z.le l →
  successor_scan d h l = Some r →
  ∃ p, p ∈ l ∧ h ≤ p ∧ (∀ q, q ∈ l → h ≤ q → p ≤ q) ∧ r = getitem d p.
Proof.
  induction 1 as [|p l Hsorted IH Hhd]; simpl; [done|].
  destruct (Z.leb_spec h p).
  - intros [= <-]. exists p. split; [left|]. split; [done|]. split; [|done].
    intros q [->|Hq]%elem_of_cons _; [lia|].
    rewrite Forall_forall in Hhd. auto.
  - intros (p' & Hin & Hle & Hleast & ->)%IH.
    exists p'. split; [by right|]. split; [done|]. split; [|done].
    intros q [->|Hq]%elem_of_cons ?; [lia|auto].
Qed.

(** Every outcome of [get_node]. *)
Lemma get_node_cases self key :
  (size (ring self) = 0%nat ∧
   get_node self key = Raise (ValueError "No nodes in the ring")) ∨
  (size (ring self) ≠ 0%nat ∧
   ∃ p shard, ring self !! p = Some shard ∧
     get_node self key = Return shard ∧
     (successor_of (ring self) (_hash key) p ∨
      wraps_to (ring self) (_hash key) p)).
Proof.
  unfold get_node. case_bool_decide as Hsize; [by left|right].
  split; [done|].
  destruct (successor_scan _ _ _) as [r|] eqn:Hscan.
  - apply successor_scan_Some in Hscan as (p & Hin & Hle & Hleast & ->);
      [|apply sorted_StronglySorted].
    apply sorted_elem_of, elem_of_keys in Hin as Hp. destruct Hp as [shard Hp].
    exists p, shard. split; [done|]. split; [by apply getitem_Return|].
    left. split; [by exists shard|]. split; [done|].
    intros q Hq ?. apply Hleast; [|done]. by apply sorted_elem_of, elem_of_keys.
  - rewrite successor_scan_None in Hscan.
    destruct (min_spec (keys (ring self))) as (m & -> & Hin & Hleast).
    { by rewrite keys_nil. }
    apply elem_of_keys in Hin as Hm. destruct Hm as [shard Hm].
    exists m, shard. split; [done|]. split; [by apply getitem_Return|].
    right. split; [by exists shard|]. split.
    + intros q Hq. by apply Hscan, sorted_elem_of, elem_of_keys.
    + intros q Hq. by apply Hleast, elem_of_keys.
Qed.

(** C1.  On a non-empty ring, [get_node] returns the shard stored at
    the smallest position that is greater than or equal to the hash of
    the key; when no stored position is that large it returns the
    shard stored at the minimum position. *)
Theorem get_node_successor_or_wraparound self key :
  size (ring self) ≠ 0%nat →
  ∃ p shard,
    ring self !! p = Some shard ∧
    get_node self key = Return shard ∧
    (successor_of (ring self) (_hash key) p ∨
      wraps_to (ring self) (_hash key) p).
Proof.
  intros Hsize. destruct (get_node_cases self key) as [[? _]|[_ ?]]; done.
Qed.

(** C8.  [get_node] raises the empty-ring error exactly when the ring
    holds no position, and returns a shard exactly when it holds one. *)
Theorem get_node_raises_iff_empty self key :
  (get_node self key = Raise (ValueError "No nodes in the ring")
     ↔ size (ring self) = 0%nat) ∧
  ((∃ e, get_node self key = Raise e) ↔ size (ring self) = 0%nat) ∧
  ((∃ shard, get_node self key = Return shard) ↔ size (ring self) ≠ 0%nat).
Proof.
  destruct (get_node_cases self key)
    as [[Hsize ->]|[Hsize (p & shard & _ & -> & _)]].
  - repeat split; try done; eauto; by intros [? ?].
  - repeat split; try done; eauto; by intros [? ?].
Qed.

End GetNode.

(** ** Ring construction *)

Section BuildRing.
Import ConsistentHashing.
Implicit Types (nodes : list string) (V : Z) (r : gmap Z string)
  (l : list (Z * string)).

Lemma build_ring_store_all nodes V r :
  foldl (λ r node, foldl (add_virtual_node node) r (range V)) r nodes
  = store_all r (virtual_node_entries nodes V).
Proof.
  unfold store_all, virtual_node_entries.
  revert r. induction nodes as [|node nodes IH]; intros r; [done|].
  rewrite bind_cons, foldl_app. simpl. rewrite IH. f_equal.
  by rewrite foldl_fmap.
Qed.

Lemma init_ring nodes V :
  ring (__init__ nodes V) = store_all ∅ (virtual_node_entries nodes V).
Proof. unfold __init__, _build_ring. simpl. apply build_ring_store_all. Qed.

Lemma store_all_snoc r l e :
  store_all r (l ++ [e]) = <[e.1 := e.2]> (store_all r l).
Proof. unfold store_all. by rewrite foldl_app. Qed.

(** The store that wins at a position is the last one made there. *)
Lemma store_all_lookup r l p :
  store_all r l !! p =
    match last (filter (λ e, e.1 = p) l) with
    | Some e => Some e.2
    | None => r !! p
    end.
Proof.
  induction l as [|e l IH] using rev_ind; [done|].
  rewrite store_all_snoc, filter_app, filter_cons, filter_nil.
  case_decide as Hp.
  - rewrite last_snoc, <-Hp. apply lookup_insert_eq.
  - rewrite app_nil_r, lookup_insert_ne by done. apply IH.
Qed.

Lemma store_all_size r l seen :
  (∀ p, p ∈ seen ↔ is_Some (r !! p)) →
  (size (store_all r l) + collisions seen l.*1 = size r + length l)%nat.
Proof.
  revert r seen. induction l as [|[p s] l IH]; intros r seen Hseen.
  - simpl. lia.
  - change (store_all r ((p, s) :: l)) with (store_all (<[p:=s]> r) l).
    change (((p, s) :: l).*1) with (p :: l.*1).
    assert (∀ q, q ∈ p :: seen ↔ is_Some (<[p:=s]> r !! q)) as Hseen'.
    { intros q. rewrite elem_of_cons, lookup_insert_is_Some, Hseen.
      destruct (decide (p = q)) as [->|]; [split; by left|].
      split; (intros [?|?]; [congruence|right; tauto]). }
    specialize (IH _ _ Hseen'). rewrite map_size_insert in IH.
    cbn [collisions length]. case_bool_decide as Hin.
    + apply Hseen in Hin as [? Hin]. rewrite Hin in IH. unfold id in IH. lia.
    + rewrite Hseen, <-eq_None_not_Some in Hin. rewrite Hin in IH. lia.
Qed.

Lemma length_virtual_node_entries nodes V :
  length (virtual_node_entries nodes V) = (length nodes * Z.to_nat V)%nat.
Proof.
  unfold virtual_node_entries, range.
  induction nodes as [|node nodes IH]; [done|].
  rewrite bind_cons, length_app, IH, length_fmap, length_seqZ. simpl. lia.
Qed.

Lemma elem_of_virtual_node_entries nodes V p s :
  (p, s) ∈ virtual_node_entries nodes V ↔
  s ∈ nodes ∧ ∃ i, 0 ≤ i < V ∧ p = _hash (s +:+ "#" +:+ pretty i).
Proof.
  unfold virtual_node_entries, range. rewrite list_elem_of_bind. split.
  - intros (node & Hin & Hnode). apply list_elem_of_fmap in Hin as (i & [= -> ->] & Hi).
    apply elem_of_seqZ in Hi. split; [done|]. exists i. split; [lia|done].
  - intros (Hs & i & Hi & ->). exists s. split; [|done].
    apply list_elem_of_fmap. exists i. split; [done|]. apply elem_of_seqZ. lia.
Qed.

(** Every shard on the ring is a configured one. *)
Lemma init_ring_lookup_nodes nodes V p s :
  ring (__init__ nodes V) !! p = Some s → s ∈ nodes.
Proof.
  rewrite init_ring, store_all_lookup.
  destruct (last _) as [[p' s']|] eqn:Hlast; [|by rewrite lookup_empty].
  intros [= <-]. apply last_Some_elem_of, list_elem_of_filter in Hlast as [_ Hin].
  by apply elem_of_virtual_node_entries in Hin as [? _].
Qed.

(** Every virtual node has its position on the ring. *)
Lemma init_ring_lookup_virtual_node nodes V node i :
  node ∈ nodes → 0 ≤ i < V →
  is_Some (ring (__init__ nodes V) !! _hash (node +:+ "#" +:+ pretty i)).
Proof.
  intros Hnode Hi. rewrite init_ring, store_all_lookup.
  destruct (last _) as [e|] eqn:Hlast; [by eexists|].
  apply last_None in Hlast.
  apply (filter_nil_not_elem_of _ _ (_hash (node +:+ "#" +:+ pretty i), node))
    in Hlast; [|done].
  exfalso. apply Hlast.
  rewrite elem_of_virtual_node_entries. split; [done|]. by exists i.
Qed.

End BuildRing.

Section RingTheorems.
Import ConsistentHashing.
Implicit Types (nodes : list string) (V : Z) (key : string).

Lemma virtual_node_entries_nonpositive nodes V :
  V ≤ 0 → virtual_node_entries nodes V = [].
Proof.
  intros HV. unfold virtual_node_entries, range.
  induction nodes as [|node nodes IH]; [done|].
  rewrite bind_cons, IH, app_nil_r.
  apply length_zero_iff_nil. rewrite length_fmap, length_seqZ. lia.
Qed.

Lemma init_ring_nonempty nodes V :
  nodes ≠ [] → 1 ≤ V → size (ring (__init__ nodes V)) ≠ 0%nat.
Proof.
  destruct nodes as [|node nodes]; [done|]. intros _ HV.
  destruct (init_ring_lookup_virtual_node (node :: nodes) V node 0)
    as [s Hs]; [left|lia|].
  apply map_size_non_empty_iff. intros Hempty.
  by rewrite Hempty, lookup_empty in Hs.
Qed.

(** C3.  [_build_ring] stores [hash(s#i) -> s] for each shard [s] in
    the given order and each [i] in [0, V); at a position produced by
    several virtual nodes the last store wins; the ring ends up with
    [N * V] positions less the number of stores that hit a position
    already taken. *)
Theorem build_ring_last_write_wins nodes V :
  0 ≤ V →
  let entries := virtual_node_entries nodes V in
  let built := ring (__init__ nodes V) in
  built = store_all ∅ entries ∧
  (∀ p, built !! p = snd <$> last (filter (λ e, e.1 = p) entries)) ∧
  Z.of_nat (size built)
    = Z.of_nat (length nodes) * V - Z.of_nat (collisions [] entries.*1).
Proof.
  intros HV entries built. subst entries built. split; [apply init_ring|]. split.
  - intros p. rewrite init_ring, store_all_lookup.
    destruct (last _); [done|apply lookup_empty].
  - pose proof (store_all_size ∅ (virtual_node_entries nodes V) []) as Hsize.
    rewrite map_size_empty, length_virtual_node_entries, <-init_ring in Hsize.
    assert (∀ p : Z, p ∈ [] ↔ is_Some ((∅ : gmap Z string) !! p)) as Hseen.
    { intros p. rewrite lookup_empty, elem_of_nil. split; [done|by intros [? ?]]. }
    specialize (Hsize Hseen). nia.
Qed.

(** C2.  On a ring built from a non-empty shard list with at least one
    virtual node per shard, [get_node] returns for every key, and
    what it returns is one of the shards of the list. *)
Theorem get_node_returns_configured_shard nodes V key :
  nodes ≠ [] → 1 ≤ V →
  ∃ shard, get_node (__init__ nodes V) key = Return shard ∧ shard ∈ nodes.
Proof.
  intros Hnodes HV. pose proof (init_ring_nonempty nodes V Hnodes HV) as Hsize.
  destruct (get_node_cases (__init__ nodes V) key)
    as [[? _]|[_ (p & shard & Hp & Hget & _)]]; [done|].
  exists shard. split; [done|]. by eapply init_ring_lookup_nodes.
Qed.

(** C10.  With zero or a negative number of virtual nodes the
    constructor returns an object whose ring is empty, whatever the
    shard list, and every [get_node] on it raises the empty-ring
    error. *)
Theorem init_without_virtual_nodes_empty_ring nodes V key :
  V ≤ 0 →
  ring (__init__ nodes V) = ∅ ∧
  ConsistentHashing.nodes (__init__ nodes V) = nodes ∧
  get_node (__init__ nodes V) key = Raise (ValueError "No nodes in the ring").
Proof.
  intros HV.
  assert (ring (__init__ nodes V) = ∅) as Hring.
  { by rewrite init_ring, virtual_node_entries_nonpositive. }
  split; [done|]. split; [done|].
  unfold get_node. by rewrite Hring, map_size_empty.
Qed.

End RingTheorems.

(** ** The claims at the module's configuration *)

Lemma get_node_successor_or_wraparound_witness :
  size (ConsistentHashing.ring consistent_hash) ≠ 0%nat ∧
  ∃ p shard,
    ConsistentHashing.ring consistent_hash !! p = Some shard ∧
    ConsistentHashing.get_node consistent_hash "42" = Return shard ∧
    (successor_of (ConsistentHashing.ring consistent_hash)
       (ConsistentHashing._hash "42") p ∨
     wraps_to (ConsistentHashing.ring consistent_hash)
       (ConsistentHashing._hash "42") p).
Proof.
  assert (size (ConsistentHashing.ring consistent_hash) ≠ 0%nat) as Hsize.
  { vm_compute. discriminate. }
  split; [exact Hsize|].
  apply (get_node_successor_or_wraparound consistent_hash "42" Hsize).
Defined.

Lemma build_ring_last_write_wins_witness :
  0 ≤ 2 ∧
  let entries := virtual_node_entries ["shard_1"; "shard_1"] 2 in
  let built := ConsistentHashing.ring
                 (ConsistentHashing.__init__ ["shard_1"; "shard_1"] 2) in
  built = store_all ∅ entries ∧
  (∀ p, built !! p = snd <$> last (filter (λ e, e.1 = p) entries)) ∧
  Z.of_nat (size built) = 2 * 2 - Z.of_nat (collisions [] entries.*1).
Proof.
  split; [lia|].
  apply (build_ring_last_write_wins ["shard_1"; "shard_1"] 2). lia.
Defined.

Lemma get_node_returns_configured_shard_witness :
  SHARDS ≠ [] ∧ 1 ≤ 100 ∧
  ∃ shard, ConsistentHashing.get_node consistent_hash "42" = Return shard ∧
           shard ∈ SHARDS.
Proof.
  split; [discriminate|]. split; [lia|].
  apply (get_node_returns_configured_shard SHARDS 100 "42"); [discriminate|lia].
Defined.

Lemma init_without_virtual_nodes_empty_ring_witness :
  0 ≤ 0 ∧
  ConsistentHashing.ring (ConsistentHashing.__init__ SHARDS 0) = ∅ ∧
  ConsistentHashing.nodes (ConsistentHashing.__init__ SHARDS 0) = SHARDS ∧
  ConsistentHashing.get_node (ConsistentHashing.__init__ SHARDS 0) "42"
    = Raise (ValueError "No nodes in the ring").
Proof.
  split; [lia|].
  apply (init_without_virtual_nodes_empty_ring SHARDS 0 "42"). lia.
Defined.

(** The dictionary behind [consistent_hash] and two lookups on it. *)
Example consistent_hash_size :
  size (ConsistentHashing.ring consistent_hash) = 300%nat.
Proof. vm_compute. reflexivity. Qed.

Example consistent_hash_no_collision :
  collisions [] (virtual_node_entries SHARDS 100).*1 = 0%nat.
Proof. vm_compute. reflexivity. Qed.

Example duplicate_shard_collides :
  collisions [] (virtual_node_entries ["shard_1"; "shard_1"] 2).*1 = 2%nat ∧
  size (ConsistentHashing.ring
          (ConsistentHashing.__init__ ["shard_1"; "shard_1"] 2)) = 2%nat.
Proof. vm_compute. done. Qed.

Example get_node_42 :
  ConsistentHashing.get_node consistent_hash "42" = Return "shard_2".
Proof. vm_compute. reflexivity. Qed.

Example get_node_7 :
  ConsistentHashing.get_node consistent_hash "7" = Return "shard_1".
Proof. vm_compute. reflexivity. Qed.

(** ** The endpoints *)

Section EndpointTheorems.
Context {W Session : Type} `{!Backend W Session}.
Implicit Types (w : world (W:=W) (Session:=Session)) (u : User)
  (ch : ConsistentHashing.t) (s : Session).

Lemma events_of_app {A} (m : M A) w evs :
  trace (m w).2 = trace w ++ evs → events_of m w = evs.
Proof. unfold events_of. intros ->. by rewrite drop_app_length. Qed.

Local Ltac unfold_router :=
  unfold create_user, get_user, get_session, create_user_try,
    create_user_except, get_user_try, try_finally, try_except,
    bind, call, log, lift, ret, raise.

Local Ltac run :=
  repeat (first [ progress simplify_eq/= | case_match ]).

Lemma create_user_trace ch u w :
  ∃ evs, trace (create_user ch u w).2 = trace w ++ evs ∧
    closed_sessions evs = opened_sessions evs ∧
    (length (opened_sessions evs) ≤ 1)%nat ∧
    (∀ s, opened_sessions evs = [s] → last evs = Some (EvClose s)) ∧
    requested_shards evs =
      match ConsistentHashing.get_node ch (pretty (user_id u)) with
      | Return shard => if bool_decide (shard ∈ SESSION_MAKERS) then [shard] else []
      | Raise _ => []
      end.
Proof.
  unfold_router.
  destruct (ConsistentHashing.get_node _ _) as [shard|e]; simpl.
  2:{ exists []. rewrite app_nil_r. repeat split; auto; done. }
  case_bool_decide as Hin; simpl.
  { exists []. rewrite app_nil_r, bool_decide_false by done.
    repeat split; auto; done. }
  rewrite bool_decide_true by done.
  run; rewrite <-?(assoc_L (++)); eexists; (split; [reflexivity|]);
    simpl; repeat split; auto; intros ? [= <-]; done.
Qed.

Lemma get_user_trace ch uid w :
  ∃ evs, trace (get_user ch uid w).2 = trace w ++ evs ∧
    closed_sessions evs = opened_sessions evs ∧
    (length (opened_sessions evs) ≤ 1)%nat ∧
    (∀ s, opened_sessions evs = [s] → last evs = Some (EvClose s)) ∧
    requested_shards evs =
      match ConsistentHashing.get_node ch (pretty uid) with
      | Return shard => if bool_decide (shard ∈ SESSION_MAKERS) then [shard] else []
      | Raise _ => []
      end.
Proof.
  unfold_router.
  destruct (ConsistentHashing.get_node _ _) as [shard|e]; simpl.
  2:{ exists []. rewrite app_nil_r. repeat split; auto; done. }
  case_bool_decide as Hin; simpl.
  { exists []. rewrite app_nil_r, bool_decide_false by done.
    repeat split; auto; done. }
  rewrite bool_decide_true by done.
  run; rewrite <-?(assoc_L (++)); eexists; (split; [reflexivity|]);
    simpl; repeat split; auto; intros ? [= <-]; done.
Qed.

(** C4.  [create_user] for a user with primary key [K] and [get_user]
    for [K] ask for a session on the same shard, the one [get_node]
    gives for [str(K)] on the ring they share, whatever the state of
    the databases at either call. *)
Theorem create_and_get_resolve_same_shard ch u w w' :
  requested_shards (events_of (create_user ch u) w)
    = requested_shards (events_of (get_user ch (user_id u)) w') ∧
  requested_shards (events_of (create_user ch u) w)
    = match ConsistentHashing.get_node ch (pretty (user_id u)) with
      | Return shard => if bool_decide (shard ∈ SESSION_MAKERS) then [shard] else []
      | Raise _ => []
      end.
Proof.
  destruct (create_user_trace ch u w) as (evs & Hevs & _ & _ & _ & Hreq).
  destruct (get_user_trace ch (user_id u) w') as (evs' & Hevs' & _ & _ & _ & Hreq').
  rewrite (events_of_app _ _ _ Hevs), (events_of_app _ _ _ Hevs').
  split; [congruence|done].
Qed.

(** C6.  In every invocation of [create_user] and of [get_user] the
    sessions closed are the sessions opened: at most one session is
    opened, it is closed exactly once, and that [close] is the last
    call made on the backend, on every path through the operation. *)
Theorem session_closed_exactly_once ch u uid w :
  (let evs := events_of (create_user ch u) w in
   closed_sessions evs = opened_sessions evs ∧
   (length (opened_sessions evs) ≤ 1)%nat ∧
   ∀ s, opened_sessions evs = [s] → last evs = Some (EvClose s)) ∧
  (let evs := events_of (get_user ch uid) w in
   closed_sessions evs = opened_sessions evs ∧
   (length (opened_sessions evs) ≤ 1)%nat ∧
   ∀ s, opened_sessions evs = [s] → last evs = Some (EvClose s)).
Proof.
  destruct (create_user_trace ch u w) as (evs & Hevs & ? & ? & ? & _).
  destruct (get_user_trace ch uid w) as (evs' & Hevs' & ? & ? & ? & _).
  simpl. rewrite (events_of_app _ _ _ Hevs), (events_of_app _ _ _ Hevs').
  done.
Qed.

(** C5, as the code has it.  When the [try] block of [create_user]
    raises an instance of [Exception], [rollback] is called on the
    session next and [close] right after it; the operation raises
    [HTTPException(500, str(e))] if both return, and the exception of
    [close] or else of [rollback] if one of them raises.  In no case
    does the operation return. *)
Theorem create_user_failure_rolls_back ch u w shard s w1 e w2 :
  ConsistentHashing.get_node ch (pretty (user_id u)) = Return shard →
  get_session shard w = (Return s, w1) →
  create_user_try s u w1 = (Raise e, w2) →
  isinstance_Exception e = true →
  ∃ r_rollback d3 r_close d4,
    rollback s (db w2) = (r_rollback, d3) ∧
    close s d3 = (r_close, d4) ∧
    create_user ch u w =
      (match r_close, r_rollback with
       | Raise e', _ => Raise e'
       | Return _, Raise e' => Raise e'
       | Return _, Return _ => Raise (HTTPException 500 (str_exn e))
       end,
       {| db := d4; trace := trace w2 ++ [EvRollback s; EvClose s] |}) ∧
    ∃ e', (create_user ch u w).1 = Raise e'.
Proof.
  intros Hnode Hsession Htry He.
  unfold create_user, bind, lift, try_finally, try_except, create_user_except.
  rewrite Hnode, Hsession, Htry, He. unfold call, raise, bind. simpl.
  destruct (rollback s (db w2)) as [r_rollback d3] eqn:Hrollback.
  destruct (close s d3) as [r_close d4] eqn:Hclose.
  exists r_rollback, d3, r_close, d4. split; [done|].
  destruct r_rollback as [[]|e1]; simpl; rewrite Hclose;
    (split; [done|]); destruct r_close as [[]|e2]; simpl;
    rewrite <-?(assoc_L (++)); eauto.
Qed.

(** C7.  When the select on the resolved shard yields no row,
    [get_user] raises [HTTPException(404, "User not found")]; when it
    yields a row, [get_user] returns that row. *)
Theorem get_user_not_found_or_row ch uid w shard s w1 row d2 d3 :
  ConsistentHashing.get_node ch (pretty uid) = Return shard →
  get_session shard w = (Return s, w1) →
  query_first s uid (db w1) = (Return row, d2) →
  close s d2 = (Return (), d3) →
  get_user ch uid w =
    (match row with
     | None => Raise (HTTPException 404 "User not found")
     | Some db_user => Return db_user
     end,
     {| db := d3; trace := trace w1 ++ [EvQuery s uid; EvClose s] |}).
Proof.
  intros Hnode Hsession Hquery Hclose.
  unfold get_user, bind, lift, try_finally, get_user_try.
  rewrite Hnode, Hsession. unfold call, bind. rewrite Hquery.
  destruct row as [db_user|]; unfold ret, raise; simpl;
    by rewrite Hclose, <-(assoc_L (++)).
Qed.

End EndpointTheorems.

(** ** The endpoints on the in-memory backend *)

Section OnMemDB.
Implicit Types (w : world (W:=MemDB.t) (Session:=nat)) (u : User)
  (ch : ConsistentHashing.t).

Lemma coerce_user_id u row : MemDB.coerce u = Return row → user_id row = user_id u.
Proof. unfold MemDB.coerce. repeat case_match; by intros [= <-]. Qed.

Lemma flush_one tbl u tbl' :
  MemDB.flush tbl [u] = Return tbl' →
  ∃ row, MemDB.coerce u = Return row ∧ tbl' = <[user_id u := row]> tbl.
Proof.
  simpl. destruct (MemDB.coerce u) as [row|e] eqn:Hrow; [|done].
  rewrite (coerce_user_id u row Hrow). case_bool_decide; [done|].
  intros [= <-]. by exists row.
Qed.

Local Arguments MemDB.flush : simpl never.

(** What [create_user] returned is what [get_user] reads back. *)
Lemma MemDB_create_then_get ch u w u' w' :
  create_user ch u w = (Return u', w') →
  MemDB.coerce u = Return u' ∧
  ∃ w'', get_user ch (user_id u) w' = (Return u', w'').
Proof.
  unfold create_user, get_user, get_session, create_user_try,
    create_user_except, get_user_try, try_finally, try_except,
    bind, call, log, lift, ret, raise.
  destruct (ConsistentHashing.get_node _ _) as [shard|e]; simpl; [|done].
  case_bool_decide as Hin; simpl; [done|].
  unfold MemDB.add_, MemDB.commit_, MemDB.refresh_, MemDB.rollback_,
    MemDB.query_first_, MemDB.table. simpl.
  rewrite !lookup_insert_eq. simpl. rewrite !lookup_insert_eq.
  destruct (MemDB.flush _ [u]) as [tbl'|e] eqn:Hflush; simpl.
  - apply flush_one in Hflush as (row & Hrow & ->).
    rewrite !lookup_insert_eq. simpl. rewrite !lookup_insert_eq. simpl.
    intros [= <- <-]. simpl.
    rewrite !lookup_insert_eq. simpl. rewrite !lookup_insert_eq. eauto.
  - destruct (isinstance_Exception e); simpl; [|done].
    rewrite !lookup_insert_eq. done.
Qed.

End OnMemDB.

(** ** The endpoint claims at the module's configuration *)

(** On a database whose commits fail with [cause], a create that gets
    as far as the commit raises [HTTPException(500, str(cause))]. *)
Lemma Failing_create_user ch u shard cause :
  ConsistentHashing.get_node ch (pretty (user_id u)) = Return shard →
  shard ∈ SESSION_MAKERS →
  isinstance_Exception cause = true →
  (create_user ch u (Failing.start cause)).1
    = Raise (HTTPException 500 (str_exn cause)).
Proof.
  intros Hnode Hshard Hcause.
  unfold create_user, get_session, create_user_try, create_user_except,
    try_finally, try_except, bind, call, log, lift, ret, raise.
  rewrite Hnode, bool_decide_false by (by intros ?). simpl.
  by rewrite Hcause.
Qed.

(** Counterexample to C5 as stated.  The requests for users 42 and 7
    are routed to two different shards.  Whatever exception makes both
    commits fail, the two requests end in one and the same value,
    [HTTPException(500, str(cause))]: no reading of that value gives
    the shard of both. *)
Lemma create_failure_error_omits_shard :
  ConsistentHashing.get_node consistent_hash (pretty (user_id ada))
    = Return "shard_2" ∧
  ConsistentHashing.get_node consistent_hash (pretty (user_id bob))
    = Return "shard_1" ∧
  (∀ cause, isinstance_Exception cause = true →
     (create_user consistent_hash ada (Failing.start cause)).1
       = Raise (HTTPException 500 (str_exn cause)) ∧
     (create_user consistent_hash bob (Failing.start cause)).1
       = Raise (HTTPException 500 (str_exn cause))) ∧
  ¬ error_tells_shard consistent_hash ada bob "shard_2" "shard_1".
Proof.
  assert (ConsistentHashing.get_node consistent_hash (pretty (user_id ada))
          = Return "shard_2") as Hada by (vm_compute; reflexivity).
  assert (ConsistentHashing.get_node consistent_hash (pretty (user_id bob))
          = Return "shard_1") as Hbob by (vm_compute; reflexivity).
  assert ("shard_2" ∈ SESSION_MAKERS) as Hshard_2
    by (apply (bool_decide_unpack _); vm_compute; exact I).
  assert ("shard_1" ∈ SESSION_MAKERS) as Hshard_1
    by (apply (bool_decide_unpack _); vm_compute; exact I).
  assert (∀ cause, isinstance_Exception cause = true →
     (create_user consistent_hash ada (Failing.start cause)).1
       = Raise (HTTPException 500 (str_exn cause)) ∧
     (create_user consistent_hash bob (Failing.start cause)).1
       = Raise (HTTPException 500 (str_exn cause))) as Hsame.
  { intros cause Hcause. split.
    - by apply (Failing_create_user consistent_hash ada "shard_2").
    - by apply (Failing_create_user consistent_hash bob "shard_1"). }
  split; [exact Hada|]. split; [exact Hbob|]. split; [exact Hsame|].
  intros (shard_of & Hshard).
  destruct (Hsame (Foreign true "") eq_refl) as [Hrun_ada Hrun_bob].
  destruct (Hshard (Foreign true "") eq_refl) as [Hshard_ada Hshard_bob].
  specialize (Hshard_ada _ Hrun_ada). specialize (Hshard_bob _ Hrun_bob).
  congruence.
Qed.

Lemma create_user_failure_rolls_back_witness :
  let cause := Foreign true "OperationalError" in
  let w1 := (get_session "shard_2" (Failing.start cause)).2 in
  let w2 := (create_user_try () ada w1).2 in
  ∃ r_rollback d3 r_close d4,
    rollback () (db w2) = (r_rollback, d3) ∧
    close () d3 = (r_close, d4) ∧
    create_user consistent_hash ada (Failing.start cause) =
      (match r_close, r_rollback with
       | Raise e', _ => Raise e'
       | Return _, Raise e' => Raise e'
       | Return _, Return _ => Raise (HTTPException 500 (str_exn cause))
       end,
       {| db := d4; trace := trace w2 ++ [EvRollback (); EvClose ()] |}) ∧
    ∃ e', (create_user consistent_hash ada (Failing.start cause)).1 = Raise e'.
Proof.
  intros cause w1 w2.
  apply (create_user_failure_rolls_back consistent_hash ada
           (Failing.start cause) "shard_2" () w1 cause w2);
    vm_compute; reflexivity.
Defined.

Lemma get_user_not_found_or_row_witness :
  let w1 := (get_session "shard_2" MemDB.start).2 in
  let d2 := (query_first 0%nat 42 (db w1)).2 in
  let d3 := (close 0%nat d2).2 in
  get_user consistent_hash 42 MemDB.start =
    (Raise (HTTPException 404 "User not found"),
     {| db := d3; trace := trace w1 ++ [EvQuery 0%nat 42; EvClose 0%nat] |}).
Proof.
  intros w1 d2 d3.
  apply (get_user_not_found_or_row consistent_hash 42 MemDB.start
           "shard_2" 0%nat w1 None d2 d3); vm_compute; reflexivity.
Defined.

(** A user is created on [shard_2] and read back from it; a second
    create with the same key is rolled back and answered with 500. *)
Example create_then_get_ada :
  let w := (create_user consistent_hash ada MemDB.start).2 in
  (create_user consistent_hash ada MemDB.start).1 = Return ada ∧
  events_of (create_user consistent_hash ada) MemDB.start
    = [EvSessionmaker "shard_2"; EvOpened "shard_2" 0%nat; EvAdd 0%nat ada;
       EvCommit 0%nat; EvRefresh 0%nat ada; EvClose 0%nat] ∧
  (get_user consistent_hash 42 w).1 = Return ada ∧
  events_of (get_user consistent_hash 42) w
    = [EvSessionmaker "shard_2"; EvOpened "shard_2" 1%nat; EvQuery 1%nat 42;
       EvClose 1%nat] ∧
  (∃ detail,
     (create_user consistent_hash ada w).1 = Raise (HTTPException 500 detail)) ∧
  events_of (create_user consistent_hash ada) w
    = [EvSessionmaker "shard_2"; EvOpened "shard_2" 1%nat; EvAdd 1%nat ada;
       EvCommit 1%nat; EvRollback 1%nat; EvClose 1%nat].
Proof. vm_compute. split_and!; try done. by eexists. Qed.


(** * Further properties of the code *)

(** ** Positions lie in the 128-bit hash space *)

Section HashRange.
Import hashlib.

Lemma le_bytes_Forall n x : Forall (λ b, 0 ≤ b < 256) (le_bytes n x).
Proof.
  revert x. induction n as [|n IH]; intros x; simpl; constructor; [|done].
  apply Z.mod_pos_bound. lia.
Qed.

Lemma length_le_bytes n x : length (le_bytes n x) = n.
Proof. revert x. induction n as [|n IH]; intros x; simpl; by rewrite ?IH. Qed.

Lemma md5_digest_bytes msg :
  Forall (λ b, 0 ≤ b < 256) (md5_digest msg) ∧ length (md5_digest msg) = 16%nat.
Proof.
  unfold md5_digest. destruct (blocks _ _ _) as [[[a b] c] d].
  rewrite !Forall_app, !length_app, !length_le_bytes.
  auto using le_bytes_Forall.
Qed.

Lemma big_endian_bound bs acc k :
  Forall (λ b, 0 ≤ b < 256) bs → 0 ≤ acc < 256 ^ Z.of_nat k →
  0 ≤ foldl (λ acc b, 256 * acc + b) acc bs < 256 ^ Z.of_nat (k + length bs).
Proof.
  intros Hbs. revert acc k.
  induction Hbs as [|b bs Hb _ IH]; intros acc k Hacc; simpl.
  - by rewrite Nat.add_0_r.
  - replace (k + S (length bs))%nat with (S k + length bs)%nat by lia.
    apply IH. rewrite Nat2Z.inj_succ, Z.pow_succ_r by lia. lia.
Qed.

Lemma md5_int_range msg : 0 ≤ md5_int msg < 2 ^ 128.
Proof.
  destruct (md5_digest_bytes msg) as [Hbytes Hlen].
  pose proof (big_endian_bound (md5_digest msg) 0 0 Hbytes) as Hbound.
  rewrite Hlen in Hbound. apply Hbound. simpl. lia.
Qed.

End HashRange.

Section RingMore.
Import ConsistentHashing.
Implicit Types (self : ConsistentHashing.t) (nodes : list string) (V : Z)
  (key : string).

(** X1.  Every hash, and with it every position stored on a ring that
    [__init__] built, is a 128-bit unsigned number. *)
Theorem ring_positions_128_bit nodes V key p :
  0 ≤ _hash key < 2 ^ 128 ∧
  (is_Some (ring (__init__ nodes V) !! p) → 0 ≤ p < 2 ^ 128).
Proof.
  split; [apply md5_int_range|].
  rewrite init_ring, store_all_lookup.
  destruct (last _) as [[p' s']|] eqn:Hlast.
  - intros _. apply last_Some_elem_of, list_elem_of_filter in Hlast as [Hp Hin].
    simpl in Hp. subst p'.
    apply elem_of_virtual_node_entries in Hin as (_ & i & _ & ->).
    apply md5_int_range.
  - rewrite lookup_empty. by intros [? ?].
Qed.

Lemma get_node_successor_intro self key p s :
  successor_of (ring self) (_hash key) p → ring self !! p = Some s →
  get_node self key = Return s.
Proof.
  intros (Hp & Hle & Hleast) Hs.
  destruct (get_node_cases self key)
    as [[Hsize _]|[_ (p' & s' & Hs' & -> & [(Hp' & Hle' & Hleast')|(_ & Hbelow & _)])]].
  - apply map_size_empty_iff in Hsize. by rewrite Hsize, lookup_empty in Hs.
  - assert (p = p') as <- by (specialize (Hleast p' Hp' Hle');
                               specialize (Hleast' p Hp Hle); lia).
    congruence.
  - specialize (Hbelow p Hp). lia.
Qed.

Lemma get_node_wraps_intro self key p s :
  wraps_to (ring self) (_hash key) p → ring self !! p = Some s →
  get_node self key = Return s.
Proof.
  intros (Hp & Hbelow & Hleast) Hs.
  destruct (get_node_cases self key)
    as [[Hsize _]|[_ (p' & s' & Hs' & -> & [(Hp' & Hle' & _)|(Hp' & _ & Hleast')])]].
  - apply map_size_empty_iff in Hsize. by rewrite Hsize, lookup_empty in Hs.
  - specialize (Hbelow p' Hp'). lia.
  - assert (p = p') as <- by (specialize (Hleast p' Hp');
                               specialize (Hleast' p Hp); lia).
    congruence.
Qed.

(** X2.  A key whose hash is itself a stored position is given the
    shard stored at that position. *)
Theorem get_node_at_stored_position self key shard :
  ring self !! _hash key = Some shard → get_node self key = Return shard.
Proof.
  intros Hs. apply (get_node_successor_intro self key (_hash key)); [|done].
  split; [by exists shard|]. split; [lia|]. intros q _ ?. lia.
Qed.

(** X3.  Two keys with no stored position between their hashes (from
    the smaller hash inclusive to the larger exclusive) get the same
    answer from [get_node]. *)
Theorem get_node_same_arc self key1 key2 :
  _hash key1 ≤ _hash key2 →
  (∀ q, is_Some (ring self !! q) → ¬ (_hash key1 ≤ q < _hash key2)) →
  get_node self key1 = get_node self key2.
Proof.
  intros Hle Hgap.
  destruct (get_node_cases self key2)
    as [[Hsize ->]|[_ (p & s & Hs & -> & [(Hp & Hle2 & Hleast)|(Hp & Hbelow & Hleast)])]].
  - unfold get_node. by rewrite bool_decide_true.
  - apply (get_node_successor_intro self key1 p); [|done].
    split; [done|]. split; [lia|]. intros q Hq ?. apply Hleast; [done|].
    specialize (Hgap q Hq). lia.
  - apply (get_node_wraps_intro self key1 p); [|done].
    split; [done|]. split; [|done]. intros q Hq.
    specialize (Hgap q Hq). specialize (Hbelow q Hq). lia.
Qed.

(** How [get_node] changes when positions are added for one shard. *)
Lemma get_node_extend self self' n key :
  (∀ p, ring self' !! p = Some n ∨ ring self' !! p = ring self !! p) →
  (∀ p, is_Some (ring self !! p) → is_Some (ring self' !! p)) →
  get_node self' key = Return n ∨ get_node self' key = get_node self key.
Proof.
  intros Hnew Hold.
  assert (∀ p s, ring self' !! p = Some s → s ≠ n → ring self !! p = Some s)
    as Hkept.
  { intros p s Hs Hne. destruct (Hnew p) as [Hn|Heq]; congruence. }
  destruct (get_node_cases self' key)
    as [[Hsize ->]|[_ (p & s & Hs & -> & Hcase)]].
  - right. unfold get_node. rewrite bool_decide_true; [done|].
    apply map_size_empty_iff, map_eq. intros q. rewrite lookup_empty.
    apply eq_None_not_Some. intros Hq%Hold.
    apply map_size_empty_iff in Hsize. by rewrite Hsize, lookup_empty in Hq.
  - destruct (decide (s = n)) as [->|Hne]; [by left|right].
    pose proof (Hkept p s Hs Hne) as Hs0. symmetry.
    destruct Hcase as [(Hp & Hle & Hleast)|(Hp & Hbelow & Hleast)].
    + apply (get_node_successor_intro self key p); [|done].
      split; [by exists s|]. split; [done|]. intros q Hq ?. by apply Hleast; [apply Hold|].
    + apply (get_node_wraps_intro self key p); [|done].
      split; [by exists s|]. split; intros q Hq; [apply Hbelow|apply Hleast]; by apply Hold.
Qed.

Lemma virtual_node_entries_app nodes1 nodes2 V :
  virtual_node_entries (nodes1 ++ nodes2) V
  = virtual_node_entries nodes1 V ++ virtual_node_entries nodes2 V.
Proof. unfold virtual_node_entries. apply bind_app. Qed.

(** X4.  Configuring one more shard at the end of the list moves a key
    to the new shard or leaves it where it was: no key moves between
    two of the old shards. *)
Theorem get_node_add_shard nodes n V key :
  get_node (__init__ (nodes ++ [n]) V) key = Return n ∨
  get_node (__init__ (nodes ++ [n]) V) key = get_node (__init__ nodes V) key.
Proof.
  assert (ring (__init__ (nodes ++ [n]) V)
          = store_all (ring (__init__ nodes V)) (virtual_node_entries [n] V))
    as Hring.
  { rewrite !init_ring, virtual_node_entries_app. unfold store_all.
    by rewrite foldl_app. }
  apply get_node_extend.
  - intros p. rewrite Hring, store_all_lookup.
    destruct (last _) as [[p' s']|] eqn:Hlast; [left|by right].
    apply last_Some_elem_of, list_elem_of_filter in Hlast as [_ Hin].
    apply elem_of_virtual_node_entries in Hin as [Hin _].
    apply list_elem_of_singleton in Hin. by subst.
  - intros p Hp. rewrite Hring, store_all_lookup. by destruct (last _).
Qed.

Lemma collisions_NoDup seen ps :
  collisions seen ps = 0%nat → NoDup ps ∧ ∀ p, p ∈ ps → p ∉ seen.
Proof.
  revert seen. induction ps as [|p ps IH]; intros seen; simpl.
  - intros _. split; [constructor|]. by intros p ?%elem_of_nil.
  - case_bool_decide as Hin; [lia|]. simpl. intros [Hnodup Hfresh]%IH. split.
    + constructor; [|done]. intros Hp. apply (Hfresh p Hp). left.
    + intros q [->|Hq]%elem_of_cons; [done|].
      intros Hseen. apply (Hfresh q Hq). by right.
Qed.

Lemma last_filter_NoDup (l : list (Z * string)) p s :
  NoDup l.*1 → (p, s) ∈ l → last (filter (λ e, e.1 = p) l) = Some (p, s).
Proof.
  induction l as [|[p' s'] l IH]; [by intros _ ?%elem_of_nil|].
  rewrite fmap_cons, NoDup_cons. intros [Hfresh Hnodup] Hin.
  assert (∀ s0, (p', s0) ∉ l) as Hfresh'.
  { intros s0 Hs0. apply Hfresh. apply list_elem_of_fmap. by exists (p', s0). }
  apply elem_of_cons in Hin as [[= <- <-]|Hin].
  - rewrite filter_cons_True by done.
    destruct (filter (λ e : Z * string, e.1 = p) l) as [|[q s0] tl] eqn:Hf; [done|].
    assert ((q, s0) ∈ filter (λ e : Z * string, e.1 = p) l) as Hq
      by (rewrite Hf; left).
    apply list_elem_of_filter in Hq as [Hq Hin]. simpl in Hq. subst q.
    by destruct (Hfresh' s0).
  - rewrite filter_cons_False; [by apply IH|].
    simpl. intros ->. by apply (Hfresh' s).
Qed.

(** X5.  On a ring built without a collision, the name of every
    virtual node, used as a key, is routed to the shard of that virtual
    node: every configured shard owns all its positions and is reached
    by some key. *)
Theorem get_node_virtual_node_name nodes V node i :
  collisions [] (virtual_node_entries nodes V).*1 = 0%nat →
  node ∈ nodes → 0 ≤ i < V →
  get_node (__init__ nodes V) (node +:+ "#" +:+ pretty i) = Return node.
Proof.
  intros [Hnodup _]%collisions_NoDup Hnode Hi.
  set (h := _hash (node +:+ "#" +:+ pretty i)).
  assert (ring (__init__ nodes V) !! h = Some node) as Hh.
  { rewrite init_ring, store_all_lookup.
    rewrite (last_filter_NoDup _ h node); [done..|].
    apply elem_of_virtual_node_entries. split; [done|]. by exists i. }
  apply (get_node_successor_intro _ _ h); [|done].
  split; [by exists node|]. split; [done|]. by intros q _ ?.
Qed.

(** X6.  Running [_build_ring] a second time on an object changes
    nothing: every position keeps the shard the first run left there. *)
Theorem build_ring_idempotent self :
  _build_ring (_build_ring self) = _build_ring self.
Proof.
  unfold _build_ring. simpl. f_equal.
  rewrite !build_ring_store_all. apply map_eq. intros p.
  rewrite !store_all_lookup. by destruct (last _).
Qed.

End RingMore.

(** ** More on the endpoints *)

Section EndpointsMore.
Context {W Session : Type} `{!Backend W Session}.
Implicit Types (w : world (W:=W) (Session:=Session)) (u : User)
  (ch : ConsistentHashing.t) (s : Session).

Local Ltac unfold_router :=
  unfold create_user, get_user, get_session, create_user_try,
    create_user_except, get_user_try, try_finally, try_except,
    bind, call, log, lift, ret, raise.

Local Ltac run :=
  repeat (first [ progress simplify_eq/= | case_match ]).

(** X7.  On an empty ring both endpoints raise the [ValueError] of
    [get_node] as it is, not an [HTTPException], and make no call on
    the database. *)
Theorem endpoints_on_empty_ring ch u uid w :
  size (ConsistentHashing.ring ch) = 0%nat →
  create_user ch u w = (Raise (ValueError "No nodes in the ring"), w) ∧
  get_user ch uid w = (Raise (ValueError "No nodes in the ring"), w).
Proof.
  intros Hsize.
  unfold create_user, get_user, bind, lift, ConsistentHashing.get_node.
  by rewrite bool_decide_true.
Qed.

(** X8.  When the ring names a shard that has no session maker, both
    endpoints raise [ValueError("Unknown shard: ...")] naming it, and
    make no call on the database. *)
Theorem endpoints_on_unknown_shard ch u w shard :
  ConsistentHashing.get_node ch (pretty (user_id u)) = Return shard →
  shard ∉ SESSION_MAKERS →
  create_user ch u w = (Raise (ValueError ("Unknown shard: " +:+ shard)), w) ∧
  get_user ch (user_id u) w = (Raise (ValueError ("Unknown shard: " +:+ shard)), w).
Proof.
  intros Hnode Hshard.
  unfold create_user, get_user, bind, lift, get_session.
  by rewrite Hnode, bool_decide_true.
Qed.

(** X9.  When the ring is built from a non-empty list of shards that
    all have a session maker, with at least one virtual node each,
    both endpoints get as far as asking for a session, and ask for one
    on a shard of the list: the unknown-shard error cannot occur. *)
Theorem endpoints_reach_configured_shard nodes V u w w' :
  nodes ≠ [] → 1 ≤ V → (∀ n, n ∈ nodes → n ∈ SESSION_MAKERS) →
  ∃ shard, shard ∈ nodes ∧
    requested_shards
      (events_of (create_user (ConsistentHashing.__init__ nodes V) u) w)
      = [shard] ∧
    requested_shards
      (events_of (get_user (ConsistentHashing.__init__ nodes V) (user_id u)) w')
      = [shard].
Proof.
  intros Hnodes HV Hmakers.
  set (ch := ConsistentHashing.__init__ nodes V).
  destruct (create_user_trace ch u w) as (evs & Hevs & _ & _ & _ & Hreq).
  destruct (get_user_trace ch (user_id u) w') as (evs' & Hevs' & _ & _ & _ & Hreq').
  rewrite (events_of_app _ _ _ Hevs), (events_of_app _ _ _ Hevs'), Hreq, Hreq'.
  destruct (get_node_cases ch (pretty (user_id u)))
    as [[Hsize _]|[_ (p & shard & Hp & -> & _)]].
  { by destruct (init_ring_nonempty nodes V). }
  apply init_ring_lookup_nodes in Hp.
  exists shard. by rewrite bool_decide_true by auto.
Qed.

(** X10.  When [create_user] returns, it has made exactly these calls:
    a session on the shard of the key, [add], [commit], [refresh],
    [close].  In particular it returns only after a commit, and never
    after a rollback. *)
Theorem create_user_return_trace ch u w u' w' :
  create_user ch u w = (Return u', w') →
  ∃ shard s,
    ConsistentHashing.get_node ch (pretty (user_id u)) = Return shard ∧
    events_of (create_user ch u) w
      = [EvSessionmaker shard; EvOpened shard s; EvAdd s u; EvCommit s;
         EvRefresh s u; EvClose s].
Proof.
  intros Hret. unfold events_of. rewrite Hret. revert Hret.
  unfold_router.
  destruct (ConsistentHashing.get_node _ _) as [shard|e]; simpl; [|done].
  case_bool_decide; simpl; [done|].
  intros Hret. run.
  all: try (destruct (isinstance_Exception _); run).
  all: eexists _, _; split; [done|]; simpl;
    rewrite <-!(assoc_L (++)); by rewrite drop_app_length.
Qed.

(** X11.  When the [try] block of [create_user] raises something that
    is not an instance of [Exception], no rollback is called: the
    session is closed and the exception goes on to the caller (unless
    [close] raises in its turn). *)
Theorem create_user_non_exception_no_rollback ch u w shard s w1 e w2 :
  ConsistentHashing.get_node ch (pretty (user_id u)) = Return shard →
  get_session shard w = (Return s, w1) →
  create_user_try s u w1 = (Raise e, w2) →
  isinstance_Exception e = false →
  ∃ r_close d3,
    close s (db w2) = (r_close, d3) ∧
    create_user ch u w =
      (match r_close with
       | Raise e' => Raise e'
       | Return _ => Raise e
       end,
       {| db := d3; trace := trace w2 ++ [EvClose s] |}).
Proof.
  intros Hnode Hsession Htry He.
  unfold create_user, bind, lift, try_finally, try_except.
  rewrite Hnode, Hsession, Htry, He. unfold call.
  destruct (close s (db w2)) as [[[]|e'] d3]; eauto.
Qed.

(** X12.  [get_user] only reads: whatever the database does, every call
    it makes is a session maker, a query or a close; it never adds,
    commits, refreshes or rolls back. *)
Theorem get_user_read_only ch uid w :
  Forall (λ ev, is_read_only ev = true) (events_of (get_user ch uid) w).
Proof.
  unfold events_of. unfold_router.
  destruct (ConsistentHashing.get_node _ _) as [shard|e]; simpl.
  2:{ by rewrite drop_all. }
  case_bool_decide; simpl; [by rewrite drop_all|].
  run; rewrite <-?(assoc_L (++)), drop_app_length; by repeat constructor.
Qed.

(** X13.  When the query of [get_user] raises, that exception reaches
    the caller as it is, after the session is closed: it is not turned
    into an [HTTPException], and nothing is rolled back. *)
Theorem get_user_query_error_propagates ch uid w shard s w1 e d2 :
  ConsistentHashing.get_node ch (pretty uid) = Return shard →
  get_session shard w = (Return s, w1) →
  query_first s uid (db w1) = (Raise e, d2) →
  ∃ r_close d3,
    close s d2 = (r_close, d3) ∧
    get_user ch uid w =
      (match r_close with
       | Raise e' => Raise e'
       | Return _ => Raise e
       end,
       {| db := d3; trace := trace w1 ++ [EvQuery s uid; EvClose s] |}).
Proof.
  intros Hnode Hsession Hquery.
  unfold get_user, bind, lift, try_finally, get_user_try.
  rewrite Hnode, Hsession. unfold call, bind. rewrite Hquery. simpl.
  destruct (close s d2) as [[[]|e'] d3]; rewrite <-(assoc_L (++)); eauto.
Qed.

End EndpointsMore.

(** ** The further properties at concrete inputs *)

Lemma get_node_at_stored_position_witness :
  ConsistentHashing.get_node consistent_hash "shard_1#0" = Return "shard_1".
Proof.
  apply (get_node_at_stored_position consistent_hash "shard_1#0" "shard_1").
  vm_compute. reflexivity.
Defined.

Lemma get_node_same_arc_witness :
  ConsistentHashing.get_node (ConsistentHashing.__init__ ["shard_1"] 1) "a"
  = ConsistentHashing.get_node (ConsistentHashing.__init__ ["shard_1"] 1) "42".
Proof.
  apply (get_node_same_arc (ConsistentHashing.__init__ ["shard_1"] 1) "a" "42").
  - vm_compute. discriminate.
  - intros q [s Hq].
    assert (ConsistentHashing.ring (ConsistentHashing.__init__ ["shard_1"] 1)
            = {[ ConsistentHashing._hash "shard_1#0" := "shard_1" ]}) as Hring
      by (vm_compute; reflexivity).
    rewrite Hring in Hq. apply lookup_singleton_Some in Hq as [<- _].
    intros [_ Hlt]. vm_compute in Hlt. discriminate.
Defined.

Lemma get_node_virtual_node_name_witness :
  ConsistentHashing.get_node consistent_hash ("shard_3" +:+ "#" +:+ pretty 7)
  = Return "shard_3".
Proof.
  apply (get_node_virtual_node_name SHARDS 100 "shard_3" 7).
  - vm_compute. reflexivity.
  - by repeat constructor.
  - lia.
Defined.

Lemma endpoints_on_empty_ring_witness :
  create_user (ConsistentHashing.__init__ SHARDS 0) ada MemDB.start
    = (Raise (ValueError "No nodes in the ring"), MemDB.start) ∧
  get_user (ConsistentHashing.__init__ SHARDS 0) 42 MemDB.start
    = (Raise (ValueError "No nodes in the ring"), MemDB.start).
Proof.
  apply (endpoints_on_empty_ring (ConsistentHashing.__init__ SHARDS 0) ada 42
           MemDB.start).
  vm_compute. reflexivity.
Defined.

Lemma endpoints_on_unknown_shard_witness :
  create_user (ConsistentHashing.__init__ ["shard_9"] 1) ada MemDB.start
    = (Raise (ValueError ("Unknown shard: " +:+ "shard_9")), MemDB.start) ∧
  get_user (ConsistentHashing.__init__ ["shard_9"] 1) (user_id ada) MemDB.start
    = (Raise (ValueError ("Unknown shard: " +:+ "shard_9")), MemDB.start).
Proof.
  apply (endpoints_on_unknown_shard (ConsistentHashing.__init__ ["shard_9"] 1)
           ada MemDB.start "shard_9").
  - vm_compute. reflexivity.
  - apply (bool_decide_unpack _). vm_compute. exact I.
Defined.

Lemma endpoints_reach_configured_shard_witness :
  ∃ shard, shard ∈ SHARDS ∧
    requested_shards (events_of (create_user consistent_hash ada) MemDB.start)
      = [shard] ∧
    requested_shards
      (events_of (get_user consistent_hash (user_id ada)) MemDB.start)
      = [shard].
Proof.
  apply (endpoints_reach_configured_shard SHARDS 100 ada MemDB.start MemDB.start).
  - discriminate.
  - lia.
  - intros n Hn. apply (bool_decide_unpack _).
    repeat (apply elem_of_cons in Hn as [->|Hn]; [vm_compute; exact I|]).
    by apply elem_of_nil in Hn.
Defined.

Lemma create_user_return_trace_witness :
  ∃ shard s,
    ConsistentHashing.get_node consistent_hash (pretty (user_id ada))
      = Return shard ∧
    events_of (create_user consistent_hash ada) MemDB.start
      = [EvSessionmaker shard; EvOpened shard s; EvAdd s ada; EvCommit s;
         EvRefresh s ada; EvClose s].
Proof.
  apply (create_user_return_trace consistent_hash ada MemDB.start ada
           (create_user consistent_hash ada MemDB.start).2).
  vm_compute. reflexivity.
Defined.

Lemma create_user_non_exception_no_rollback_witness :
  let w1 := (get_session "shard_2" Flaky.start).2 in
  let w2 := (create_user_try () ada w1).2 in
  ∃ r_close d3,
    close () (db w2) = (r_close, d3) ∧
    create_user consistent_hash ada Flaky.start =
      (match r_close with
       | Raise e' => Raise e'
       | Return _ => Raise (Foreign false "KeyboardInterrupt")
       end,
       {| db := d3; trace := trace w2 ++ [EvClose ()] |}).
Proof.
  intros w1 w2.
  apply (create_user_non_exception_no_rollback consistent_hash ada Flaky.start
           "shard_2" () w1 (Foreign false "KeyboardInterrupt") w2);
    vm_compute; reflexivity.
Defined.

Lemma get_user_query_error_propagates_witness :
  let w1 := (get_session "shard_2" Flaky.start).2 in
  ∃ r_close d3,
    close () () = (r_close, d3) ∧
    get_user consistent_hash 42 Flaky.start =
      (match r_close with
       | Raise e' => Raise e'
       | Return _ =>
           Raise (Foreign true "server closed the connection unexpectedly")
       end,
       {| db := d3; trace := trace w1 ++ [EvQuery () 42; EvClose ()] |}).
Proof.
  intros w1.
  apply (get_user_query_error_propagates consistent_hash 42 Flaky.start
           "shard_2" () w1
           (Foreign true "server closed the connection unexpectedly") ());
    vm_compute; reflexivity.
Defined.

(** ** The replication handlers *)

Section ReplicationTheorems.
Import Replication.
Context {W Conn Cur : Type} `{!Backend W Conn Cur}.
Implicit Types (w : world (W:=W) (Conn:=Conn) (Cur:=Cur)) (conn : Conn)
  (cur : Cur) (name : string).

Local Ltac unfold_handlers :=
  unfold create_user, get_users, create_user_try, create_user_except,
    get_users_try, get_users_except, with_connection, with_cursor,
    async_with, try_except, bind, call, log, lift, ret, raise.

Local Ltac run :=
  repeat (first [ progress simplify_eq/= | case_match ]).

Lemma replication_events_of_app {A} (m : M A) w evs :
  trace (m w).2 = trace w ++ evs → events_of m w = evs.
Proof. unfold events_of. intros ->. by rewrite drop_app_length. Qed.

(** X14.  When opening the primary pool fails at startup, the replica
    pool is not opened and the same exception leaves [startup_event]. *)
Theorem replication_startup_stops_at_primary w e d1 :
  pool_open primary_pool (db w) = (Raise e, d1) →
  startup_event w =
    (Raise e, {| db := d1; trace := trace w ++ [EvPoolOpen primary_pool] |}).
Proof.
  intros Hopen. unfold startup_event, try_except, bind, call, raise.
  rewrite Hopen. by destruct (isinstance_Exception e).
Qed.

(** X15.  [shutdown_event] lets no instance of [Exception] out: if it
    raises at all, what it raises is outside [Exception]. *)
Theorem replication_shutdown_swallows_exceptions w :
  match (shutdown_event w).1 with
  | Return _ => True
  | Raise e => isinstance_Exception e = false
  end.
Proof.
  unfold shutdown_event, try_except, bind, call, ret.
  destruct (pool_close primary_pool (db w)) as [[[]|e1] d1]; simpl.
  - destruct (pool_close replica_pool d1) as [[[]|e2] d2]; simpl; [done|].
    by destruct (isinstance_Exception e2) eqn:He2.
  - by destruct (isinstance_Exception e1) eqn:He1.
Qed.

(** X16.  When closing the primary pool fails with an [Exception] at
    shutdown, [shutdown_event] returns as if nothing had happened and
    the replica pool is never closed. *)
Theorem replication_shutdown_skips_replica w e d1 :
  pool_close primary_pool (db w) = (Raise e, d1) →
  isinstance_Exception e = true →
  shutdown_event w =
    (Return (), {| db := d1; trace := trace w ++ [EvPoolClose primary_pool] |}).
Proof.
  intros Hclose He. unfold shutdown_event, try_except, bind, call, ret.
  by rewrite Hclose, He.
Qed.

(** X17.  When the [try] block of [create_user] raises a
    [psycopg.Error], [rollback] is called on the connection, the
    connection goes back to the primary pool, and the caller gets
    [HTTPException(400, "Insert failed: " + str(e))], unless the
    rollback or the release raises in its turn. *)
Theorem replication_create_user_rolls_back w name conn d1 e w2 :
  connection_aenter primary_pool (db w) = (Return conn, d1) →
  create_user_try conn name (connected w primary_pool conn d1) = (Raise e, w2) →
  isinstance_psycopg_Error e = true →
  ∃ r_rollback d3 r_release d4,
    rollback conn (db w2) = (r_rollback, d3) ∧
    connection_aexit primary_pool conn true d3 = (r_release, d4) ∧
    create_user name w =
      (match r_release, r_rollback with
       | Raise e', _ => Raise e'
       | Return _, Raise e' => Raise e'
       | Return _, Return _ =>
           Raise (HTTPException 400 ("Insert failed: " +:+ str_exn e))
       end,
       {| db := d4;
          trace := trace w2 ++ [EvRollback conn; EvRelease primary_pool conn true] |}).
Proof.
  intros Henter Htry He.
  unfold create_user, with_connection, async_with, try_except, bind, call, log, ret.
  rewrite Henter. simpl. rewrite <-(assoc_L (++)). simpl.
  unfold connected in Htry. rewrite Htry, He.
  unfold create_user_except, bind, call, raise.
  destruct (rollback conn (db w2)) as [r_rollback d3] eqn:Hrollback.
  destruct r_rollback as [[]|e1]; simpl;
    destruct (connection_aexit primary_pool conn true d3) as [r_release d4] eqn:Hrelease;
    eexists _, d3, r_release, d4; (split; [done|]); (split; [done|]);
    destruct r_release as [[]|e2]; by rewrite <-?(assoc_L (++)).
Qed.

(** X18.  An exception of the [try] block of [create_user] that is not
    a [psycopg.Error] is not handled: no rollback is called by the
    handler, the connection goes back to the pool and the exception
    reaches the caller. *)
Theorem replication_create_user_other_error w name conn d1 e w2 :
  connection_aenter primary_pool (db w) = (Return conn, d1) →
  create_user_try conn name (connected w primary_pool conn d1) = (Raise e, w2) →
  isinstance_psycopg_Error e = false →
  ∃ r_release d3,
    connection_aexit primary_pool conn true (db w2) = (r_release, d3) ∧
    create_user name w =
      (match r_release with
       | Raise e' => Raise e'
       | Return _ => Raise e
       end,
       {| db := d3; trace := trace w2 ++ [EvRelease primary_pool conn true] |}).
Proof.
  intros Henter Htry He.
  unfold create_user, with_connection, async_with, try_except, bind, call, log, ret.
  rewrite Henter. simpl. rewrite <-(assoc_L (++)). simpl.
  unfold connected in Htry. rewrite Htry, He.
  destruct (connection_aexit primary_pool conn true (db w2)) as [[[]|e'] d3];
    eauto.
Qed.

(** X19.  When the [try] block of [get_users] raises a [psycopg.Error],
    the caller gets [HTTPException(400, "Query failed: " + str(e))]
    once the connection is back in the replica pool; no rollback is
    called. *)
Theorem replication_get_users_query_failed w conn d1 e w2 :
  connection_aenter replica_pool (db w) = (Return conn, d1) →
  get_users_try conn (connected w replica_pool conn d1) = (Raise e, w2) →
  isinstance_psycopg_Error e = true →
  ∃ r_release d3,
    connection_aexit replica_pool conn true (db w2) = (r_release, d3) ∧
    get_users w =
      (match r_release with
       | Raise e' => Raise e'
       | Return _ => Raise (HTTPException 400 ("Query failed: " +:+ str_exn e))
       end,
       {| db := d3; trace := trace w2 ++ [EvRelease replica_pool conn true] |}).
Proof.
  intros Henter Htry He.
  unfold get_users, with_connection, async_with, try_except, bind, call, log, ret.
  rewrite Henter. simpl. rewrite <-(assoc_L (++)). simpl.
  unfold connected in Htry. rewrite Htry, He.
  unfold get_users_except, raise.
  destruct (connection_aexit replica_pool conn true (db w2)) as [[[]|e'] d3];
    eauto.
Qed.

Lemma replication_create_user_trace name w :
  ∃ evs, trace (create_user name w).2 = trace w ++ evs ∧
    connections_released evs = connections_taken evs ∧
    (length (connections_taken evs) ≤ 1)%nat ∧
    Forall (λ p, p = primary_pool) (pools_used evs).
Proof.
  unfold_handlers.
  run; rewrite <-?(assoc_L (++)); eexists; (split; [reflexivity|]);
    simpl; repeat split; auto; by repeat constructor.
Qed.

Lemma replication_get_users_trace w :
  ∃ evs, trace (get_users w).2 = trace w ++ evs ∧
    connections_released evs = connections_taken evs ∧
    (length (connections_taken evs) ≤ 1)%nat ∧
    Forall (λ p, p = replica_pool) (pools_used evs) ∧
    Forall (λ ev, is_transaction_end ev = false) evs.
Proof.
  unfold_handlers.
  run; rewrite <-?(assoc_L (++)); eexists; (split; [reflexivity|]);
    simpl; repeat split; auto; by repeat constructor.
Qed.

(** X20.  In every invocation of [create_user] and of [get_users] the
    connections given back to a pool are the connections taken from
    it: at most one is taken, and it is given back exactly once, on
    every path. *)
Theorem replication_connection_released_once name w :
  (let evs := events_of (create_user name) w in
   connections_released evs = connections_taken evs ∧
   (length (connections_taken evs) ≤ 1)%nat) ∧
  (let evs := events_of get_users w in
   connections_released evs = connections_taken evs ∧
   (length (connections_taken evs) ≤ 1)%nat).
Proof.
  destruct (replication_create_user_trace name w) as (evs & Hevs & ? & ? & _).
  destruct (replication_get_users_trace w) as (evs' & Hevs' & ? & ? & _).
  simpl. rewrite (replication_events_of_app _ _ _ Hevs),
    (replication_events_of_app _ _ _ Hevs').
  done.
Qed.

(** X21.  [create_user] touches the primary pool only and [get_users]
    the replica pool only, whatever happens on the way. *)
Theorem replication_read_write_split name w :
  Forall (λ p, p = primary_pool) (pools_used (events_of (create_user name) w)) ∧
  Forall (λ p, p = replica_pool) (pools_used (events_of get_users w)).
Proof.
  destruct (replication_create_user_trace name w) as (evs & Hevs & _ & _ & ?).
  destruct (replication_get_users_trace w) as (evs' & Hevs' & _ & _ & ? & _).
  rewrite (replication_events_of_app _ _ _ Hevs),
    (replication_events_of_app _ _ _ Hevs').
  done.
Qed.

(** X22.  [get_users] never calls [commit] or [rollback] on its
    connection, not even after a failed query. *)
Theorem replication_get_users_no_commit_no_rollback w :
  Forall (λ ev, is_transaction_end ev = false) (events_of get_users w).
Proof.
  destruct (replication_get_users_trace w) as (evs & Hevs & _ & _ & _ & ?).
  by rewrite (replication_events_of_app _ _ _ Hevs).
Qed.

(** X23.  When [create_user] returns, it returns a dictionary with the
    keys [id] and [name] taken from the first two columns of the row
    fetched, and the calls it made are exactly: a connection from the
    primary pool, a cursor, the parameterised insert with the name as
    its one parameter, [fetchone], [commit], and the two exits. *)
Theorem replication_create_user_return_trace name w answer w' :
  create_user name w = (Return answer, w') →
  ∃ conn cur (col0 col1 : value) (row : list value) (d d' : W),
    fetchone cur d = (Return (Some row), d') ∧
    row !! 0%nat = Some col0 ∧ row !! 1%nat = Some col1 ∧
    answer = [("id", col0); ("name", col1)] ∧
    events_of (create_user name) w
      = [EvConnect primary_pool; EvConnected primary_pool conn;
         EvCursor conn; EvCursorOpened cur;
         EvExecute cur insert_query [VStr name]; EvFetchone cur;
         EvCommit conn; EvCursorClose cur false;
         EvRelease primary_pool conn false].
Proof.
  intros Hret. unfold events_of. rewrite Hret. revert Hret.
  unfold_handlers. unfold subscript. intros Hret. run.
  all: eexists _, _, _, _, _, _, _; split; [eassumption|];
    do 3 (split; [done|]); simpl;
    rewrite <-!(assoc_L (++)); by rewrite drop_app_length.
Qed.

End ReplicationTheorems.

(** ** The replication handlers on the stub database *)

Section ReplicationWitnesses.
Import Replication.

Lemma replication_startup_stops_at_primary_witness :
  startup_event (start Down) =
    (Raise (Foreign PsycopgError "the connection is lost"),
     {| db := mkStub Down []; trace := [EvPoolOpen primary_pool] |}).
Proof.
  apply (replication_startup_stops_at_primary (start Down)
           (Foreign PsycopgError "the connection is lost") (mkStub Down [])).
  reflexivity.
Defined.

Lemma replication_shutdown_skips_replica_witness :
  shutdown_event (start Down) =
    (Return (), {| db := mkStub Down []; trace := [EvPoolClose primary_pool] |}).
Proof.
  apply (replication_shutdown_skips_replica (start Down)
           (Foreign PsycopgError "the connection is lost") (mkStub Down []));
    reflexivity.
Defined.

Lemma replication_create_user_rolls_back_witness :
  let w1 := connected (start Down) primary_pool primary_pool (mkStub Down []) in
  let w2 := (create_user_try primary_pool "Ada" w1).2 in
  ∃ r_rollback d3 r_release d4,
    rollback primary_pool (db w2) = (r_rollback, d3) ∧
    connection_aexit primary_pool primary_pool true d3 = (r_release, d4) ∧
    create_user "Ada" (start Down) =
      (match r_release, r_rollback with
       | Raise e', _ => Raise e'
       | Return _, Raise e' => Raise e'
       | Return _, Return _ =>
           Raise (HTTPException 400
                    ("Insert failed: " +:+
                     str_exn (Foreign PsycopgError "the connection is lost")))
       end,
       {| db := d4;
          trace := trace w2 ++ [EvRollback primary_pool;
                                EvRelease primary_pool primary_pool true] |}).
Proof.
  intros w1 w2.
  apply (replication_create_user_rolls_back (start Down) "Ada" primary_pool
           (mkStub Down []) (Foreign PsycopgError "the connection is lost") w2);
    vm_compute; reflexivity.
Defined.

Lemma replication_create_user_other_error_witness :
  let w1 := connected (start Mute) primary_pool primary_pool (mkStub Mute []) in
  let w2 := (create_user_try primary_pool "Ada" w1).2 in
  ∃ r_release d3,
    connection_aexit primary_pool primary_pool true (db w2) = (r_release, d3) ∧
    create_user "Ada" (start Mute) =
      (match r_release with
       | Raise e' => Raise e'
       | Return _ => Raise (TypeError "'NoneType' object is not subscriptable")
       end,
       {| db := d3;
          trace := trace w2 ++ [EvRelease primary_pool primary_pool true] |}).
Proof.
  intros w1 w2.
  apply (replication_create_user_other_error (start Mute) "Ada" primary_pool
           (mkStub Mute [])
           (TypeError "'NoneType' object is not subscriptable") w2);
    vm_compute; reflexivity.
Defined.

Lemma replication_get_users_query_failed_witness :
  let w1 := connected (start Down) replica_pool replica_pool (mkStub Down []) in
  let w2 := (get_users_try replica_pool w1).2 in
  ∃ r_release d3,
    connection_aexit replica_pool replica_pool true (db w2) = (r_release, d3) ∧
    get_users (start Down) =
      (match r_release with
       | Raise e' => Raise e'
       | Return _ =>
           Raise (HTTPException 400
                    ("Query failed: " +:+
                     str_exn (Foreign PsycopgError "the connection is lost")))
       end,
       {| db := d3;
          trace := trace w2 ++ [EvRelease replica_pool replica_pool true] |}).
Proof.
  intros w1 w2.
  apply (replication_get_users_query_failed (start Down) replica_pool
           (mkStub Down []) (Foreign PsycopgError "the connection is lost") w2);
    vm_compute; reflexivity.
Defined.

Lemma replication_create_user_return_trace_witness :
  ∃ conn cur (col0 col1 : value) (row : list value) (d d' : stub),
    fetchone cur d = (Return (Some row), d') ∧
    row !! 0%nat = Some col0 ∧ row !! 1%nat = Some col1 ∧
    [("id", VInt 1); ("name", VStr "Ada")] = [("id", col0); ("name", col1)] ∧
    events_of (create_user "Ada") (start Up)
      = [EvConnect primary_pool; EvConnected primary_pool conn;
         EvCursor conn; EvCursorOpened cur;
         EvExecute cur insert_query [VStr "Ada"]; EvFetchone cur;
         EvCommit conn; EvCursorClose cur false;
         EvRelease primary_pool conn false].
Proof.
  apply (replication_create_user_return_trace "Ada" (start Up)
           [("id", VInt 1); ("name", VStr "Ada")]
           (create_user "Ada" (start Up)).2).
  vm_compute. reflexivity.
Defined.

(** A name is inserted through the primary and listed through the
    replica; with the database mute the insert is committed and the
    handler then fails on the missing row. *)
Example replication_on_stub :
  (create_user "Ada" (start Up)).1
    = Return [("id", VInt 1); ("name", VStr "Ada")] ∧
  (get_users (create_user "Ada" (start Up)).2).1
    = Return [[("id", VInt 1); ("name", VStr "Ada")]] ∧
  events_of (create_user "Ada") (start Mute)
    = [EvConnect primary_pool; EvConnected primary_pool primary_pool;
       EvCursor primary_pool; EvCursorOpened primary_pool;
       EvExecute primary_pool insert_query [VStr "Ada"];
       EvFetchone primary_pool; EvCommit primary_pool;
       EvCursorClose primary_pool true;
       EvRelease primary_pool primary_pool true].
Proof. vm_compute. repeat split. Qed.

End ReplicationWitnesses.

(** ** The handlers in front of the coordinator *)

Section CitusTheorems.
Import Citus.
Context {W Conn Cur : Type} `{!Backend W Conn Cur}.
Implicit Types (w : world (W:=W) (Conn:=Conn) (Cur:=Cur)) (conn : Conn)
  (cur : Cur).

Local Ltac unfold_handlers :=
  unfold get_user, create_user, get_user_shard, get_user_shard_try,
    with_connection, with_cursor, with_, try_except, bind, call, log,
    lift, ret, raise.

Local Ltac run :=
  repeat (first [ progress simplify_eq/= | case_match ]).

(** X24.  [get_user] answers with the row fetched, and with the empty
    dictionary when there is no row (or an empty one): a user that is
    not there is not an error. *)
Theorem citus_get_user_row_or_empty uid w conn cur row d1 d2 d3 d4 d5 d6 :
  connect (db w) = (Return conn, d1) →
  cursor_enter conn d1 = (Return cur, d2) →
  execute cur select_user [VInt uid] d2 = (Return (), d3) →
  fetchone cur d3 = (Return row, d4) →
  cursor_exit cur false d4 = (Return (), d5) →
  connection_exit conn false d5 = (Return (), d6) →
  get_user uid w =
    (Return (match row with
             | Some (kv :: rest) => kv :: rest
             | _ => []
             end),
     {| db := d6;
        trace := trace w ++
          [EvConnect; EvConnected conn; EvCursor conn; EvCursorOpened cur;
           EvExecute cur select_user [VInt uid]; EvFetchone cur;
           EvCursorExit cur false; EvConnectionExit conn false] |}).
Proof.
  intros Hconnect Hcursor Hexecute Hfetch Hcursor_exit Hexit.
  unfold_handlers. rewrite Hconnect. simpl. rewrite Hcursor. simpl.
  rewrite Hexecute. simpl. rewrite Hfetch. simpl.
  rewrite Hcursor_exit. simpl. rewrite Hexit. simpl.
  rewrite <-!(assoc_L (++)). simpl.
  by destruct row as [[|kv rest]|].
Qed.

(** X25.  [create_user] never returns and never commits: subscripting
    the fetched row with [0] and the result with ["user_id"] raises
    before [commit] is reached, whatever the database answers. *)
Theorem citus_create_user_never_commits name email created_at w :
  (∃ e, (create_user name email created_at w).1 = Raise e) ∧
  Forall (λ ev, is_commit ev = false)
         (events_of (create_user name email created_at) w).
Proof.
  unfold events_of. unfold_handlers. unfold subscript, subscript_value.
  run; (split; [by eauto|]);
    rewrite <-?(assoc_L (++)), drop_app_length; by repeat constructor.
Qed.

(** X26.  [get_user_shard] lets no [psycopg.Error] out, wherever it
    arises: if it raises at all, what it raises is something else. *)
Theorem citus_get_user_shard_no_psycopg_error uid w :
  match (get_user_shard uid w).1 with
  | Return _ => True
  | Raise e => isinstance_psycopg_Error e = false
  end.
Proof.
  unfold get_user_shard, try_except.
  destruct (get_user_shard_try uid w) as [[answer|e] w']; simpl; [done|].
  by destruct (isinstance_psycopg_Error e) eqn:He.
Qed.

(** X27.  When the first statement of [get_user_shard] yields no row,
    the answer is [{"error": "Shard not found"}] and the second
    statement is not executed. *)
Theorem citus_get_user_shard_not_found uid w conn cur shard d1 d2 d3 d4 d5 d6 :
  connect (db w) = (Return conn, d1) →
  cursor_enter conn d1 = (Return cur, d2) →
  execute cur select_shard [VStr (pretty uid); VStr (pretty uid)] d2
    = (Return (), d3) →
  fetchone cur d3 = (Return shard, d4) →
  truthy shard = false →
  cursor_exit cur false d4 = (Return (), d5) →
  connection_exit conn false d5 = (Return (), d6) →
  get_user_shard uid w =
    (Return [(KStr "error", VStr "Shard not found")],
     {| db := d6;
        trace := trace w ++
          [EvConnect; EvConnected conn; EvCursor conn; EvCursorOpened cur;
           EvExecute cur select_shard [VStr (pretty uid); VStr (pretty uid)];
           EvFetchone cur; EvCursorExit cur false;
           EvConnectionExit conn false] |}).
Proof.
  intros Hconnect Hcursor Hexecute Hfetch Hfalsy Hcursor_exit Hexit.
  unfold_handlers. rewrite Hconnect. simpl. rewrite Hcursor. simpl.
  rewrite Hexecute. simpl. rewrite Hfetch, Hfalsy. simpl.
  rewrite Hcursor_exit. simpl. rewrite Hexit. simpl.
  by rewrite <-!(assoc_L (++)).
Qed.

(** X28.  When the coordinator cannot be reached, [get_user_shard]
    returns [{"error": str(e)}] for the [psycopg.Error] of the
    connection attempt instead of raising it. *)
Theorem citus_get_user_shard_connect_error uid w e d1 :
  connect (db w) = (Raise e, d1) →
  isinstance_psycopg_Error e = true →
  get_user_shard uid w =
    (Return [(KStr "error", VStr (str_exn e))],
     {| db := d1; trace := trace w ++ [EvConnect] |}).
Proof.
  intros Hconnect He. unfold_handlers. by rewrite Hconnect, He.
Qed.

End CitusTheorems.

(** ** The coordinator handlers on the stub *)

Section CitusWitnesses.
Import Citus.

Lemma citus_get_user_row_or_empty_witness :
  get_user 42 (start bare) =
    (Return [],
     {| db := mkStub true None None None None;
        trace := [EvConnect; EvConnected (); EvCursor (); EvCursorOpened ();
                  EvExecute () select_user [VInt 42]; EvFetchone ();
                  EvCursorExit () false; EvConnectionExit () false] |}).
Proof.
  apply (citus_get_user_row_or_empty 42 (start bare) () () None
           bare bare bare bare bare bare); reflexivity.
Defined.

Lemma citus_get_user_shard_not_found_witness :
  get_user_shard 42 (start bare) =
    (Return [(KStr "error", VStr "Shard not found")],
     {| db := mkStub true None None None None;
        trace := [EvConnect; EvConnected (); EvCursor (); EvCursorOpened ();
                  EvExecute () select_shard [VStr (pretty 42); VStr (pretty 42)];
                  EvFetchone (); EvCursorExit () false;
                  EvConnectionExit () false] |}).
Proof.
  apply (citus_get_user_shard_not_found 42 (start bare) () () None
           bare bare bare bare bare bare); reflexivity.
Defined.

Lemma citus_get_user_shard_connect_error_witness :
  get_user_shard 42 (start down) =
    (Return [(KStr "error", VStr "connection refused")],
     {| db := down; trace := [EvConnect] |}).
Proof.
  apply (citus_get_user_shard_connect_error 42 (start down)
           (Foreign true "connection refused") down); reflexivity.
Defined.

(** On a coordinator that holds user 42: the row comes back, the shard
    and node are reported, and creating a user fails at the subscript
    with the insert left uncommitted. *)
Example citus_on_stub :
  (get_user 42 (start loaded)).1
    = Return [(KStr "user_id", VInt 42); (KStr "name", VStr "Ada")] ∧
  (get_user_shard 42 (start loaded)).1
    = Return [(KStr "user_id", VInt 42); (KStr "shard_id", VInt 102008);
              (KStr "node", VStr "worker-1:5432")] ∧
  (create_user "Ada" "ada@example.org" "2025-01-01" (start loaded)).1
    = Raise (KeyError (KInt 0)) ∧
  events_of (create_user "Ada" "ada@example.org" "2025-01-01") (start loaded)
    = [EvConnect; EvConnected (); EvCursor (); EvCursorOpened ();
       EvExecute () insert_user
         [VStr "Ada"; VStr "ada@example.org"; VStr "2025-01-01"];
       EvFetchone (); EvCursorExit () true; EvConnectionExit () true].
Proof. vm_compute. repeat split. Qed.

End CitusWitnesses.
